(** * catf: recursive comparison of two target files

    A shallow embedding of [catf.py] and the properties of its comparison
    engine, its logical path handling, its shell wrapper, its map-file
    sorting and its duplicate filter. *)

From Stdlib Require Import ZArith Ascii String DecimalString.
From stdpp Require Import base list sorting gmap strings.

Local Open Scope string_scope.
Local Open Scope list_scope.
Local Open Scope Z_scope.

(** ** The Python string operations the program uses *)

Module Py.

(** [len(s)] as an integer. *)
Definition len (s : string) : Z := Z.of_nat (String.length s).

(** [s.find(sub)]: the lowest index of [sub] in [s], or [-1]. *)
Fixpoint find_from (sub s : string) (i : Z) : Z :=
  if String.prefix sub s then i
  else match s with
       | EmptyString => -1
       | String _ s' => find_from sub s' (i + 1)
       end.

Definition find (sub s : string) : Z := find_from sub s 0.

(** [sub in s]. *)
Definition contains (sub s : string) : bool := negb (find sub s =? -1).

(** [s.rfind(sub)]: the highest index of [sub] in [s], or [-1]. *)
Fixpoint rfind_from (sub s : string) (i : Z) : Z :=
  match s with
  | EmptyString => if String.prefix sub s then i else -1
  | String _ s' =>
      let r := rfind_from sub s' (i + 1) in
      if r =? -1 then (if String.prefix sub s then i else -1) else r
  end.

Definition rfind (sub s : string) : Z := rfind_from sub s 0.

(** A slice bound, as Python normalises it: a negative bound counts from
    the end, and the result is clamped to [0 .. len(s)]. *)
Definition bound (s : string) (i : Z) : nat :=
  let n := len s in
  Z.to_nat (if i <? 0 then Z.max 0 (i + n) else Z.min i n).

(** [s[i:]] *)
Definition slice_from (s : string) (i : Z) : string :=
  let b := bound s i in String.substring b (String.length s - b) s.

(** [s[:j]] *)
Definition slice_to (s : string) (j : Z) : string :=
  String.substring 0 (bound s j) s.

(** [s[i:j]] *)
Definition slice (s : string) (i j : Z) : string :=
  let b := bound s i in String.substring b (bound s j - b) s.

(** [s.startswith(p)] *)
Definition startswith (p s : string) : bool := String.prefix p s.

(** [s.replace(old, new)] for a non-empty [old]: occurrences are replaced
    from the left and do not overlap; [skip] counts the characters of the
    occurrence just replaced that are still to be passed over. *)
Fixpoint replace_from (old new : string) (skip : nat) (s : string) : string :=
  match s with
  | EmptyString => EmptyString
  | String c s' =>
      match skip with
      | S k => replace_from old new k s'
      | O =>
          if String.prefix old s
          then new +:+ replace_from old new (String.length old - 1) s'
          else String c (replace_from old new 0 s')
      end
  end.

(** With an empty [old], Python puts [new] before every character and at
    the end. *)
Fixpoint replace_empty (new s : string) : string :=
  match s with
  | EmptyString => new
  | String c s' => new +:+ String c (replace_empty new s')
  end.

Definition replace (old new s : string) : string :=
  match old with
  | EmptyString => replace_empty new s
  | String _ _ => replace_from old new 0 s
  end.

(** [while s.find(old) != -1: s = s.replace(old, new)].  Every round that
    runs shortens [s] when [new] is shorter than [old], so [S (length s)]
    rounds are enough for the two loops of the program. *)
Fixpoint replace_while (rounds : nat) (old new s : string) : string :=
  match rounds with
  | O => s
  | S k => if find old s =? -1 then s
           else replace_while k old new (replace old new s)
  end.

(** [s.split(sep)] for a one-character separator: every separator cuts,
    empty pieces are kept, and the result is never empty. *)
Fixpoint split (sep : ascii) (s : string) : list string :=
  match s with
  | EmptyString => [EmptyString]
  | String c s' =>
      if Ascii.eqb c sep then EmptyString :: split sep s'
      else match split sep s' with
           | w :: ws => String c w :: ws
           | [] => [String c EmptyString]
           end
  end.

(** [c.lower()] on the ASCII letters. *)
Definition lower_ascii (c : ascii) : ascii :=
  let n := N_of_ascii c in
  if ((65 <=? n) && (n <=? 90))%N then ascii_of_N (n + 32) else c.

Fixpoint lower (s : string) : string :=
  match s with
  | EmptyString => EmptyString
  | String c s' => String (lower_ascii c) (lower s')
  end.

(** [sep.join(l)] *)
Definition join (sep : string) (l : list string) : string := String.concat sep l.

(** [str(n)] of an integer. *)
Definition str_of_int (n : Z) : string := NilZero.string_of_int (Z.to_int n).

(** [f.readlines()]: the lines of a text, each with its newline; a last
    line without newline is kept as it is.  [cur] is the line being read. *)
Fixpoint readlines_from (cur s : string) : list string :=
  match s with
  | EmptyString => match cur with EmptyString => [] | String _ _ => [cur] end
  | String c s' =>
      if Ascii.eqb c "010"%char
      then (cur +:+ String c EmptyString) :: readlines_from EmptyString s'
      else readlines_from (cur +:+ String c EmptyString) s'
  end.

Definition readlines (s : string) : list string := readlines_from EmptyString s.

End Py.

(** [os.path], POSIX flavour. *)
Module os_path.

(** [os.path.basename(p)]: what follows the last slash. *)
Definition basename (p : string) : string :=
  let i := Py.rfind "/" p + 1 in Py.slice_from p i.

(** The loop of [genericpath._splitext] that skips the leading dots of the
    file name: [true] when a character other than a dot stands between
    [filenameIndex] and [dotIndex]. *)
Fixpoint has_name_before_dot (steps : nat) (p : string) (filenameIndex dotIndex : Z) : bool :=
  match steps with
  | O => false
  | S k =>
      if filenameIndex <? dotIndex then
        if negb (String.eqb (Py.slice p filenameIndex (filenameIndex + 1)) ".")
        then true
        else has_name_before_dot k p (filenameIndex + 1) dotIndex
      else false
  end.

(** [os.path.splitext(p)]: the extension starts at the last dot of the
    last path component, unless that component only has leading dots. *)
Definition splitext (p : string) : string * string :=
  let sepIndex := Py.rfind "/" p in
  let dotIndex := Py.rfind "." p in
  if (sepIndex <? dotIndex)
     && has_name_before_dot (String.length p) p (sepIndex + 1) dotIndex
  then (Py.slice_to p dotIndex, Py.slice_from p dotIndex)
  else (p, EmptyString).

End os_path.

(** ** Program state, exceptions and the world outside

    The program keeps three global lists and writes to two output streams;
    it raises [UncomparableFilesException], leaves through [sys.exit], and
    can fail on an index or on the interpreter's recursion limit. *)

Record globals := {
  all_commands : list string;
  uncomparable_files : list string;
  apk_files : list string;
  stdout : list string;
  stderr : list string
}.

Inductive exn :=
| UncomparableFilesException (message : string)
| SystemExit (code : Z)
| IndexError
| RecursionError.

Inductive result (A : Type) :=
| Ok (a : A)
| Raise (e : exn).
Arguments Ok {A} a.
Arguments Raise {A} e.

(** A computation reads and updates the globals; the globals survive an
    exception, as they do in Python. *)
Definition M (A : Type) : Type := globals -> result A * globals.

Definition ret {A} (a : A) : M A := fun g => (Ok a, g).

Definition raise {A} (e : exn) : M A := fun g => (Raise e, g).

Definition bind {A B} (m : M A) (k : A -> M B) : M B :=
  fun g => match m g with
           | (Ok a, g') => k a g'
           | (Raise e, g') => (Raise e, g')
           end.

Declare Scope py_scope.
Delimit Scope py_scope with py.
Notation "x <- m ;; k" := (bind m (fun x => k))
  (at level 100, m at next level, right associativity) : py_scope.
Notation "m ;; k" := (bind m (fun _ => k))
  (at level 100, right associativity) : py_scope.

(** [try: m  except UncomparableFilesException as ex: handler(ex.message)] *)
Definition try_except {A} (m : M A) (handler : string -> M A) : M A :=
  fun g => match m g with
           | (Raise (UncomparableFilesException message), g') => handler message g'
           | r => r
           end.

(** The updates of the globals. *)
Definition add_stdout (line : string) (g : globals) : globals :=
  {| all_commands := all_commands g;
     uncomparable_files := uncomparable_files g;
     apk_files := apk_files g;
     stdout := stdout g ++ [line];
     stderr := stderr g |}.

Definition add_stderr (text : string) (g : globals) : globals :=
  {| all_commands := all_commands g;
     uncomparable_files := uncomparable_files g;
     apk_files := apk_files g;
     stdout := stdout g;
     stderr := stderr g ++ [text] |}.

Definition add_command (cmd : string) (g : globals) : globals :=
  {| all_commands := all_commands g ++ [cmd];
     uncomparable_files := uncomparable_files g;
     apk_files := apk_files g;
     stdout := stdout g;
     stderr := stderr g |}.

Definition add_apk_file (entry : string) (g : globals) : globals :=
  {| all_commands := all_commands g;
     uncomparable_files := uncomparable_files g;
     apk_files := apk_files g ++ [entry];
     stdout := stdout g;
     stderr := stderr g |}.

Definition add_uncomparable (entry : string) (g : globals) : globals :=
  {| all_commands := all_commands g;
     uncomparable_files := uncomparable_files g ++ [entry];
     apk_files := apk_files g;
     stdout := stdout g;
     stderr := stderr g |}.

(** [print(line)] *)
Definition print (line : string) : M unit := fun g => (Ok tt, add_stdout line g).

(** [sys.stderr.write(text)] *)
Definition stderr_write (text : string) : M unit := fun g => (Ok tt, add_stderr text g).

(** [sys.exit(code)] *)
Definition sys_exit {A} (code : Z) : M A := raise (SystemExit code).

(** [l[i]] of a Python list. *)
Definition item {A} (l : list A) (i : nat) : M A :=
  match l !! i with
  | Some a => ret a
  | None => raise IndexError
  end.

(** [for x in l: acc = body(acc, x)] *)
Fixpoint for_each {A B} (l : list A) (acc : B) (body : B -> A -> M B) : M B :=
  match l with
  | [] => ret acc
  | x :: l' => bind (body acc x) (fun acc' => for_each l' acc' body)
  end.

(** A Python dict of logical parent path to file pairs: assignment to a
    present key replaces the value where it stands, assignment to a new key
    appends, and iteration follows that order. *)
Definition dict := list (string * list string).

Fixpoint dict_set (k : string) (v : list string) (d : dict) : dict :=
  match d with
  | [] => [(k, v)]
  | (k', v') :: d' => if String.eqb k' k then (k', v) :: d' else (k', v') :: dict_set k v d'
  end.

(** [d.update(other)] *)
Definition dict_update (d other : dict) : dict :=
  fold_left (fun acc kv => dict_set (fst kv) (snd kv) acc) other d.

(** [x in l] on strings. *)
Definition elem (x : string) (l : list string) : bool := existsb (String.eqb x) l.

(** What the program asks of its environment.  The file system and the
    outcome of a shell command depend on the commands run so far, which
    [all_commands] records; the iteration order of a set of strings is the
    interpreter's choice, given here by a rank for the members of each set. *)
Record world := {
  (** [os.popen(cmd)]: the lines read and what [close()] returns *)
  popen : list string -> string -> list string * option Z;
  (** [os.path.isdir] and [os.path.isfile] *)
  isdir : list string -> string -> bool;
  isfile : list string -> string -> bool;
  (** iteration order of a set with the given members *)
  set_rank : list string -> string -> nat;
  (** [sys.getrecursionlimit()], in calls of the comparator *)
  recursion_limit : nat
}.

(** The settings fixed by [compare] before the comparison starts. *)
Record config := {
  ZIP_FILENAME_1 : string;
  ZIP_FILENAME_2 : string;
  OUTPUT_DIR : string;
  QUIET : bool;
  GRADLEW_PATH : string;
  argv0 : string
}.

Definition TMP_DIRECTORY : string := "/tmp".
Definition ROOT_COMPARISON : string := TMP_DIRECTORY +:+ "/comparison".
Definition DIFF_ARGS : string := "-qraNwB --no-dereference".

Definition dquote : string := String "034"%char EmptyString.
Definition newline : string := String "010"%char EmptyString.

(** [list(set(a) - set(b))]: the members of [a] that are not in [b], once
    each, in the iteration order of the resulting set. *)
Fixpoint insert_ranked (rank : string -> nat) (x : string) (l : list string) : list string :=
  match l with
  | [] => [x]
  | y :: l' => if (rank x <=? rank y)%nat then x :: l else y :: insert_ranked rank x l'
  end.

Definition list_of_set (w : world) (members : list string) : list string :=
  foldr (insert_ranked (set_rank w members)) [] members.

Fixpoint distinct (l : list string) : list string :=
  match l with
  | [] => []
  | x :: l' => if elem x l' then distinct l' else x :: distinct l'
  end.

Definition set_difference (w : world) (a b : list string) : list string :=
  list_of_set w (distinct (List.filter (fun x => negb (elem x b)) a)).

(** ** The program *)

Section Catf.

Context (cfg : config) (w : world).

Local Open Scope py_scope.

Definition get_filename (path : string) : string := os_path.basename path.

Definition extension (path : string) : string := snd (os_path.splitext path).

Definition get_progname : string := get_filename (argv0 cfg).

Definition print_error (cause : string) : M unit :=
  let prog := get_progname in
  stderr_write (prog +:+ ": error: " +:+ cause).

Definition dir_exists (path : string) : M bool :=
  fun g => (Ok (isdir w (all_commands g) path), g).

Definition file_exists (path : string) : M bool :=
  fun g => (Ok (isfile w (all_commands g) path), g).

(** [str(exit_code)] *)
Definition str_of_exit_code (exit_code : option Z) : string :=
  match exit_code with
  | None => "None"
  | Some n => Py.str_of_int n
  end.

Definition shell_successfull (cmd : string) (exit_code : option Z) : bool :=
  let prog := hd EmptyString (Py.split " " cmd) in
  match exit_code with
  | None => true
  | Some code =>
      if elem prog ["grep"; "diff"] then negb (code =? 2)
      else code =? 0
  end.

(** [all_commands.append(cmd)], then [os.popen(cmd)], its [readlines()]
    and its [close()]. *)
Definition popen_run (cmd : string) : M (list string * option Z) :=
  fun g => (Ok (popen w (all_commands g) cmd), add_command cmd g).

Definition run_shell_command (cmd : string) : M (list string * option Z) :=
  (if QUIET cfg then ret tt else print cmd) ;;
  out <- popen_run cmd ;;
  let list_output := fst out in
  let exit_code := snd out in
  if negb (shell_successfull cmd exit_code) then
    let error_msg := "command '" +:+ cmd +:+ "' exited with status: "
                     +:+ str_of_exit_code exit_code in
    raise (UncomparableFilesException error_msg)
  else ret (list_output, exit_code).

Definition remove_newlines (input_list : list string) : list string :=
  map (fun line => Py.replace_while (S (String.length line)) newline EmptyString line)
      input_list.

Definition diff (path1 path2 : string) : M (list string) :=
  let awk_cmd := "awk '{print $2 " +:+ dquote +:+ " " +:+ dquote +:+ " $4}'" in
  let diff_cmd := "diff " +:+ DIFF_ARGS +:+ " " +:+ path1 +:+ " " +:+ path2 in
  let full_cmd := diff_cmd +:+ " | " +:+ awk_cmd in
  out <- run_shell_command full_cmd ;;
  ret (remove_newlines (fst out)).

Definition unzip (src dst : string) : M unit :=
  let cmd := "unzip -q " +:+ src +:+ " -d " +:+ dst in
  out <- run_shell_command cmd ;;
  let exit_code := snd out in
  if negb (shell_successfull cmd exit_code) then
    print_error ("unable unzipping file " +:+ src +:+ " to " +:+ dst
                 +:+ ", exit code: " +:+ str_of_exit_code exit_code) ;;
    sys_exit 1
  else ret tt.

Definition get_file_type (path : string) : M string :=
  let awk_command := "awk -F " +:+ dquote +:+ ": " +:+ dquote +:+ " '{print $2}'" in
  out <- run_shell_command ("file " +:+ path +:+ " | " +:+ awk_command) ;;
  item (fst out) 0.

Definition is_text_file (path : string) : M bool :=
  file_type <- get_file_type path ;;
  ret (Py.contains "text" (Py.lower file_type)).

Definition get_relative_path (path : string) : string :=
  let rpath := Py.replace (TMP_DIRECTORY +:+ "/target-files/" +:+ ZIP_FILENAME_1 cfg) "" path in
  let rpath := Py.replace (TMP_DIRECTORY +:+ "/target-files/" +:+ ZIP_FILENAME_2 cfg) "" rpath in
  let rpath := Py.replace (ROOT_COMPARISON +:+ "/apks") "" rpath in
  let rpath := Py.replace (ROOT_COMPARISON +:+ "/capex") "" rpath in
  let rpath := Py.replace (ROOT_COMPARISON +:+ "/apex") "" rpath in
  let rpath := Py.replace (ROOT_COMPARISON +:+ "/ext4") "" rpath in
  let rpath := Py.replace (ROOT_COMPARISON +:+ "/lz4") "" rpath in
  let rpath := Py.replace (ROOT_COMPARISON +:+ "/imgs") "" rpath in
  let rpath := Py.replace (ROOT_COMPARISON +:+ "/gz") "" rpath in
  let rpath := Py.replace (ROOT_COMPARISON +:+ "/zip") "" rpath in
  let rpath := Py.replace (ZIP_FILENAME_1 cfg) "" rpath in
  let rpath := Py.replace (ZIP_FILENAME_2 cfg) "" rpath in
  let rpath := Py.replace ROOT_COMPARISON "" rpath in
  let rpath := Py.replace "unzip_boot" "" rpath in
  let rpath := Py.replace_while (S (String.length rpath)) "//" "/" rpath in
  if Py.startswith "/" rpath then Py.slice_from rpath 1 else rpath.

Definition get_new_parent_dir (path current_parent : string) : string :=
  let relative_name := get_relative_path path in
  let fname := get_filename path in
  let findex := Py.rfind "/" current_parent in
  let parent_file := Py.slice_from current_parent (findex + 1) in
  let parent_dir := Py.slice_to current_parent findex in
  if Py.contains parent_file relative_name
  then parent_dir +:+ "/" +:+ relative_name
  else current_parent +:+ "/" +:+ fname.

Definition extractable_extensions : list string :=
  [".apex"; ".capex"; ".img"; ".apk"; ".zip"; ".gz"; ".lz4"; ".ext4"].

Definition can_extract_further (diffs : list string) : list string :=
  List.filter
    (fun file_pair =>
       let file1 := hd EmptyString (Py.split " " file_pair) in
       let ext := extension file1 in
       elem ext extractable_extensions)
    diffs.

(** *** Extraction strategies *)

Definition extract_7z_files (file1 file2 target1 target2 : string) (use_sim2img : bool)
  : M unit :=
  let file1_fullname := get_filename file1 in
  let file2_fullname := get_filename file2 in
  run_shell_command ("rm -rf " +:+ target1 +:+ " " +:+ target2) ;;
  run_shell_command ("mkdir -p " +:+ target1 +:+ " " +:+ target2) ;;
  run_shell_command ("cp " +:+ file1 +:+ " " +:+ target1) ;;
  run_shell_command ("cp " +:+ file2 +:+ " " +:+ target2) ;;
  if use_sim2img then
    let extract_file1 := "simg2img " +:+ file1_fullname +:+ " " +:+ file1_fullname
                         +:+ ".iso && 7z -bb0 -bd x " +:+ file1_fullname +:+ ".iso" in
    let extract_file2 := "simg2img " +:+ file2_fullname +:+ " " +:+ file2_fullname
                         +:+ ".iso && 7z -bb0 -bd x " +:+ file2_fullname +:+ ".iso" in
    run_shell_command ("cd " +:+ target1 +:+ " && " +:+ extract_file1
                       +:+ " > /dev/null && rm -f " +:+ file1_fullname +:+ "* *.log") ;;
    run_shell_command ("cd " +:+ target2 +:+ " && " +:+ extract_file2
                       +:+ " > /dev/null && rm -f " +:+ file2_fullname +:+ "* *.log") ;;
    ret tt
  else
    run_shell_command ("cd " +:+ target1 +:+ " && 7z -bb0 -bd x " +:+ file1_fullname
                       +:+ " > /dev/null && rm -f " +:+ file1_fullname +:+ " *.log") ;;
    run_shell_command ("cd " +:+ target2 +:+ " && 7z -bb0 -bd x " +:+ file2_fullname
                       +:+ " > /dev/null && rm -f " +:+ file2_fullname +:+ " *.log") ;;
    run_shell_command ("rm -f " +:+ target1 +:+ "/*.log " +:+ target2 +:+ "/*.log") ;;
    ret tt.

Definition compare_image_files (img1 img2 : string) : M (list string) :=
  let imgfile := get_filename img1 in
  let img1_dst := ROOT_COMPARISON +:+ "/imgs/" +:+ imgfile +:+ "/" +:+ ZIP_FILENAME_1 cfg in
  let img2_dst := ROOT_COMPARISON +:+ "/imgs/" +:+ imgfile +:+ "/" +:+ ZIP_FILENAME_2 cfg in
  if String.eqb imgfile "userdata.img" then ret []
  else if elem imgfile ["ramdisk.img"; "product.img"; "system.img"] then
    let use_sim2img := negb (String.eqb imgfile "ramdisk.img") in
    extract_7z_files img1 img2 img1_dst img2_dst use_sim2img ;;
    diff img1_dst img2_dst
  else
    let gradlew := GRADLEW_PATH cfg in
    let gradlew_bin := gradlew +:+ "/gradlew" in
    let gradlew_build := gradlew +:+ "/build/unzip_boot/" in
    let rm_gradlew_log := "rm -f " +:+ gradlew +:+ "/build/unzip_boot/*.log" in
    run_shell_command ("rm -rf " +:+ img1_dst +:+ " " +:+ img2_dst) ;;
    run_shell_command ("mkdir -p " +:+ img1_dst +:+ " " +:+ img2_dst) ;;
    run_shell_command ("rm -f " +:+ gradlew +:+ "/*.img && cp " +:+ img1 +:+ " ~/gradlew") ;;
    run_shell_command ("cd " +:+ gradlew +:+ " && " +:+ gradlew_bin
                       +:+ " unpack 2> /dev/null && " +:+ rm_gradlew_log) ;;
    run_shell_command ("mv " +:+ gradlew_build +:+ " " +:+ img1_dst) ;;
    run_shell_command ("rm -f " +:+ gradlew +:+ "/*.img && cp " +:+ img2 +:+ " ~/gradlew") ;;
    run_shell_command ("cd " +:+ gradlew +:+ " && " +:+ gradlew_bin
                       +:+ " unpack 2> /dev/null && " +:+ rm_gradlew_log) ;;
    run_shell_command ("mv " +:+ gradlew_build +:+ " " +:+ img2_dst) ;;
    run_shell_command ("rm -f " +:+ gradlew +:+ "/*.img") ;;
    diff img1_dst img2_dst.

(** [if file_exists(n1) and file_exists(n2): gzip -d n1; gzip -d n2] *)
Definition unpack_notice_files (notice_file1 notice_file2 : string) : M unit :=
  e1 <- file_exists notice_file1 ;;
  e2 <- (if e1 then file_exists notice_file2 else ret false) ;;
  if e1 && e2 then
    run_shell_command ("gzip -d " +:+ notice_file1) ;;
    run_shell_command ("gzip -d " +:+ notice_file2) ;;
    ret tt
  else ret tt.

Definition compare_apex_files (apex1 apex2 : string) : M (list string) :=
  let apex_module := get_filename apex1 in
  let apex_target_dir := ROOT_COMPARISON +:+ "/" +:+ apex_module in
  let apex1_dst := apex_target_dir +:+ "/" +:+ ZIP_FILENAME_1 cfg in
  let apex2_dst := apex_target_dir +:+ "/" +:+ ZIP_FILENAME_2 cfg in
  run_shell_command ("mkdir -p " +:+ apex1_dst +:+ " " +:+ apex2_dst) ;;
  d1 <- dir_exists apex1_dst ;;
  (if d1 then run_shell_command ("rm -rf " +:+ apex1_dst +:+ "/*") ;; ret tt else ret tt) ;;
  d2 <- dir_exists apex2_dst ;;
  (if d2 then run_shell_command ("rm -rf " +:+ apex2_dst +:+ "/*") ;; ret tt else ret tt) ;;
  unzip apex1 apex1_dst ;;
  unzip apex2 apex2_dst ;;
  let notice_file1 := apex1_dst +:+ "/assets/NOTICE.html.gz" in
  let notice_file2 := apex2_dst +:+ "/assets/NOTICE.html.gz" in
  unpack_notice_files notice_file1 notice_file2 ;;
  diff apex1_dst apex2_dst.

Definition compare_capex_files (capex1 capex2 : string) : M (list string) :=
  let capex_module := get_filename capex1 in
  let capex_target_dir := ROOT_COMPARISON +:+ "/" +:+ capex_module in
  let capex1_dst := capex_target_dir +:+ "/" +:+ ZIP_FILENAME_1 cfg in
  let capex2_dst := capex_target_dir +:+ "/" +:+ ZIP_FILENAME_2 cfg in
  run_shell_command ("rm -rf " +:+ capex1_dst) ;;
  run_shell_command ("rm -rf " +:+ capex2_dst) ;;
  run_shell_command ("mkdir -p " +:+ capex1_dst +:+ " " +:+ capex2_dst) ;;
  unzip capex1 capex1_dst ;;
  unzip capex2 capex2_dst ;;
  let original_apex1 := capex1_dst +:+ "/original_apex" in
  let original_apex2 := capex2_dst +:+ "/original_apex" in
  let original_apex1_file := original_apex1 +:+ ".apex" in
  let original_apex2_file := original_apex2 +:+ ".apex" in
  run_shell_command ("mv " +:+ original_apex1 +:+ " " +:+ original_apex1_file) ;;
  run_shell_command ("mv " +:+ original_apex2 +:+ " " +:+ original_apex2_file) ;;
  unzip original_apex1_file original_apex1 ;;
  unzip original_apex2_file original_apex2 ;;
  run_shell_command ("rm " +:+ original_apex1_file) ;;
  run_shell_command ("rm " +:+ original_apex2_file) ;;
  let notice_file1 := original_apex1 +:+ "/assets/NOTICE.html.gz" in
  let notice_file2 := original_apex2 +:+ "/assets/NOTICE.html.gz" in
  unpack_notice_files notice_file1 notice_file2 ;;
  diff capex1_dst capex2_dst.

Definition compare_apk_files (apk1 apk2 : string) : M (list string) :=
  let rpath := get_relative_path apk1 in
  let apk_target := ROOT_COMPARISON +:+ "/apks/" +:+ rpath in
  let apk1_dst := apk_target +:+ "/" +:+ ZIP_FILENAME_1 cfg in
  let apk2_dst := apk_target +:+ "/" +:+ ZIP_FILENAME_2 cfg in
  run_shell_command ("rm -rf " +:+ apk1_dst +:+ " " +:+ apk2_dst) ;;
  run_shell_command ("mkdir -p " +:+ apk1_dst +:+ " " +:+ apk2_dst) ;;
  unzip apk1 apk1_dst ;;
  unzip apk2 apk2_dst ;;
  diff apk1_dst apk2_dst.

Definition compare_zip_files (zip1 zip2 : string) : M (list string) :=
  let rpath := get_relative_path zip1 in
  let zipfile_target_dir := ROOT_COMPARISON +:+ "/zip/" +:+ rpath in
  let zip1_dst := zipfile_target_dir +:+ "/" +:+ ZIP_FILENAME_1 cfg in
  let zip2_dst := zipfile_target_dir +:+ "/" +:+ ZIP_FILENAME_2 cfg in
  run_shell_command ("rm -rf " +:+ zip1_dst +:+ " " +:+ zip2_dst) ;;
  run_shell_command ("mkdir -p " +:+ zip1_dst +:+ " " +:+ zip2_dst) ;;
  unzip zip1 zip1_dst ;;
  unzip zip2 zip2_dst ;;
  diff zip1_dst zip2_dst.

Definition compare_gz_files (gz1 gz2 : string) : M (list string) :=
  let gz_filename := get_filename gz1 in
  let gz_target_dir := ROOT_COMPARISON +:+ "/gz/" +:+ gz_filename in
  let gz1_dst := gz_target_dir +:+ "/" +:+ ZIP_FILENAME_1 cfg in
  let gz2_dst := gz_target_dir +:+ "/" +:+ ZIP_FILENAME_2 cfg in
  let gz1_target := gz1_dst +:+ "/" +:+ get_filename gz1 in
  let gz2_target := gz2_dst +:+ "/" +:+ get_filename gz2 in
  run_shell_command ("mkdir -p " +:+ gz1_dst +:+ " " +:+ gz2_dst) ;;
  run_shell_command ("cp " +:+ gz1 +:+ " " +:+ gz1_dst) ;;
  run_shell_command ("cp " +:+ gz2 +:+ " " +:+ gz2_dst) ;;
  run_shell_command ("gzip -d " +:+ gz1_target) ;;
  run_shell_command ("gzip -d " +:+ gz2_target) ;;
  diff gz1_dst gz2_dst.

Definition compare_lz4_files (lz41 lz42 : string) : M (list string) :=
  let lz4_filename := get_filename lz41 in
  let lz4_target_dir := ROOT_COMPARISON +:+ "/lz4/" +:+ lz4_filename in
  let lz41_dst := lz4_target_dir +:+ "/" +:+ lz4_filename +:+ "/" +:+ ZIP_FILENAME_1 cfg in
  let lz42_dst := lz4_target_dir +:+ "/" +:+ lz4_filename +:+ "/" +:+ ZIP_FILENAME_2 cfg in
  let lz41_target := lz41_dst +:+ "/" +:+ lz4_filename in
  let lz42_target := lz42_dst +:+ "/" +:+ lz4_filename in
  run_shell_command ("rm -rf " +:+ lz41_dst +:+ " " +:+ lz42_dst) ;;
  run_shell_command ("mkdir -p " +:+ lz41_dst +:+ " " +:+ lz42_dst) ;;
  run_shell_command ("lz4 -q " +:+ lz41 +:+ " -dc > " +:+ lz41_target) ;;
  run_shell_command ("lz4 -q " +:+ lz42 +:+ " -dc > " +:+ lz42_target) ;;
  run_shell_command ("rm -f " +:+ lz41_target +:+ " " +:+ lz42_target) ;;
  diff lz41_dst lz42_dst.

Definition compare_ext4_files (ext41 ext42 : string) : M (list string) :=
  let ext4_filename := get_filename ext41 in
  let ext4_target_dir := ROOT_COMPARISON +:+ "/ext4/" +:+ ext4_filename in
  let ext41_dst := ext4_target_dir +:+ "/" +:+ ZIP_FILENAME_1 cfg in
  let ext42_dst := ext4_target_dir +:+ "/" +:+ ZIP_FILENAME_2 cfg in
  extract_7z_files ext41 ext42 ext41_dst ext42_dst false ;;
  diff ext41_dst ext42_dst.

(** *** The recursive comparator *)

(** [apk_files.append(entry)] *)
Definition apk_files_append (entry : string) : M unit :=
  fun g => (Ok tt, add_apk_file entry g).

(** [uncomparable_files += [entry]] *)
Definition uncomparable_files_extend (entry : string) : M unit :=
  fun g => (Ok tt, add_uncomparable entry g).

(** the current value of the global [uncomparable_files] *)
Definition read_uncomparable_files : M (list string) :=
  fun g => (Ok (uncomparable_files g), g).

(** What [compare_files_recursive] does after its if/elif chain, once
    [diffs] is known; [recurse] is the recursive call.  The dict
    [all_diffs] is updated in place by the program; here it is passed in
    and handed back next to the returned tuple. *)
Definition after_extraction
    (recurse : string -> string -> string -> dict -> M (option string * list string * dict))
    (parent_dir : string) (all_diffs : dict) (diffs : list string)
  : M (option string * list string * dict) :=
  let further_extractable := can_extract_further diffs in
  uncomparable <- read_uncomparable_files ;;
  let new_diffs_to_compare := set_difference w further_extractable uncomparable in
  let previous_diffs := set_difference w diffs new_diffs_to_compare in
  let all_diffs :=
    if (0 <? length previous_diffs)%nat
    then dict_set parent_dir previous_diffs all_diffs else all_diffs in
  if (length new_diffs_to_compare =? 0)%nat then
    ret (Some parent_dir, diffs, all_diffs)
  else
    acc <- for_each new_diffs_to_compare ([], all_diffs)
             (fun acc file_pair =>
                file1 <- item (Py.split " " file_pair) 0 ;;
                file2 <- item (Py.split " " file_pair) 1 ;;
                let new_parent_dir := get_new_parent_dir file1 parent_dir in
                r <- recurse file1 file2 new_parent_dir (snd acc) ;;
                ret (fst acc ++ snd (fst r), snd r)) ;;
    ret (None, previous_diffs ++ fst acc, snd acc).

(** [depth] is the number of nested calls the interpreter still allows. *)
Fixpoint compare_files_recursive (depth : nat) (file1 file2 parent_dir : string)
    (all_diffs : dict) : M (option string * list string * dict) :=
  match depth with
  | O => raise RecursionError
  | S depth' =>
      let ext1 := extension file1 in
      let ext2 := extension file2 in
      let ext := Py.slice_from ext1 1 in
      let continue := after_extraction (compare_files_recursive depth') parent_dir all_diffs in
      if negb (String.eqb ext1 ext2) then
        print_error ("cannot compare '" +:+ ext1 +:+ "' and '" +:+ ext2
                     +:+ "' files. Not the same extension!") ;;
        sys_exit 1
      else
        print ("comparing " +:+ parent_dir +:+ " ...") ;;
        if String.eqb ext "img" then
          diffs <- compare_image_files file1 file2 ;; continue diffs
        else
          text <- is_text_file file1 ;;
          if text then continue [file1 +:+ " " +:+ file2]
          else if String.eqb ext "apex" then
            diffs <- compare_apex_files file1 file2 ;; continue diffs
          else if String.eqb ext "capex" then
            diffs <- compare_capex_files file1 file2 ;; continue diffs
          else if String.eqb ext "apk" then
            apk_files_append (file1 +:+ " " +:+ file2) ;;
            diffs <- compare_apk_files file1 file2 ;; continue diffs
          else if String.eqb ext "zip" then
            diffs <- compare_zip_files file1 file2 ;; continue diffs
          else if String.eqb ext "gz" then
            diffs <- compare_gz_files file1 file2 ;; continue diffs
          else if String.eqb ext "lz4" then
            diffs <- compare_lz4_files file1 file2 ;; continue diffs
          else if String.eqb ext "ext4" then
            diffs <- compare_ext4_files file1 file2 ;; continue diffs
          else
            print ("unsupported file! " +:+ file1) ;;
            ret (Some parent_dir, [file1 +:+ " " +:+ file2],
                 dict_set parent_dir [file1 +:+ " " +:+ file2] all_diffs)
  end.

Definition compare_files (file1 file2 parent_dir : string) : M dict :=
  r <- compare_files_recursive (recursion_limit w) file1 file2 parent_dir [] ;;
  ret (snd r).

(** *** The top level *)

Definition make_clean (target1 target2 : string) : M unit :=
  run_shell_command ("rm -rf " +:+ target1 +:+ " " +:+ target2 +:+ " " +:+ ROOT_COMPARISON) ;;
  ret tt.

Definition unzip_target_files (zip1_path zip2_path zip1_dst zip2_dst : string) : M unit :=
  d1 <- dir_exists zip1_dst ;;
  (if negb d1 then print ("unzipping " +:+ zip1_path +:+ " ...") ;; unzip zip1_path zip1_dst
   else print ("found " +:+ zip1_path +:+ " unpacked, reusing")) ;;
  d2 <- dir_exists zip2_dst ;;
  (if negb d2 then print ("unzipping " +:+ zip2_path +:+ " ...") ;; unzip zip2_path zip2_dst
   else print ("found " +:+ zip2_path +:+ " unpacked, reusing")).

(** The body of the loop of [compare_target_files] for one entry of the
    initial diff. *)
Definition compare_target_pair (all_diffs : dict) (file_pair : string) : M dict :=
  file1 <- item (Py.split " " file_pair) 0 ;;
  file2 <- item (Py.split " " file_pair) 1 ;;
  let parent_dir := get_relative_path file1 in
  try_except
    (diffs <- compare_files file1 file2 parent_dir ;;
     ret (dict_update all_diffs diffs))
    (fun message =>
       uncomparable_files_extend (file1 +:+ " " +:+ file2) ;;
       print message ;;
       sys_exit 1).

(** The loop of [compare_target_files] over the entries of the initial
    diff. *)
Definition comparison_loop (initial_diff : list string) (all_diffs : dict) : M dict :=
  for_each initial_diff all_diffs compare_target_pair.

Definition compare_target_files (zip1 zip2 : string) (force_clean : bool) : M dict :=
  let zip1_dst := TMP_DIRECTORY +:+ "/target-files/" +:+ ZIP_FILENAME_1 cfg in
  let zip2_dst := TMP_DIRECTORY +:+ "/target-files/" +:+ ZIP_FILENAME_2 cfg in
  (if force_clean then make_clean zip1_dst zip2_dst else ret tt) ;;
  present <- dir_exists (TMP_DIRECTORY +:+ "/target-files") ;;
  (if negb present
   then run_shell_command ("mkdir -p " +:+ TMP_DIRECTORY +:+ "/target-files") ;; ret tt
   else ret tt) ;;
  unzip_target_files zip1 zip2 zip1_dst zip2_dst ;;
  initial_diff <- diff zip1_dst zip2_dst ;;
  comparison_loop initial_diff [].

End Catf.

(** ** Files on disk: duplicate filtering and map-file sorting *)

(** What a path leads to; a path that leads nowhere is absent from the map. *)
Inductive file :=
| RegularFile (content : string)
| Directory.

Inductive io_error :=
| FileNotFoundError
| IsADirectoryError
| UnicodeDecodeError.

(** [filecmp.cmp(file1, file2, shallow=False)] inside [try], with
    [FileNotFoundError] turned into [False]: two regular files with the
    same bytes. *)
Definition files_are_equal (fs : gmap string file) (file1 file2 : string) : bool :=
  match fs !! file1, fs !! file2 with
  | Some (RegularFile c1), Some (RegularFile c2) => String.eqb c1 c2
  | _, _ => false
  end.

Fixpoint inside_unique_list (fs : gmap string file) (unique_files : list string)
    (path_to_compare : string) : bool :=
  match unique_files with
  | [] => false
  | unique_file :: rest =>
      if files_are_equal fs unique_file path_to_compare then true
      else inside_unique_list fs rest path_to_compare
  end.

(** A leaf difference [(path, file1, file2)]. *)
Definition file_tuple : Type := string * string * string.

Definition tuple_path (t : file_tuple) : string := fst (fst t).
Definition tuple_file1 (t : file_tuple) : string := snd (fst t).
Definition tuple_file2 (t : file_tuple) : string := snd t.

(** The three lists [filter_duplicates] grows. *)
Record unique_lists := {
  unique_files1 : list string;
  unique_files2 : list string;
  unique_files_final : list file_tuple
}.

Definition filter_step (fs : gmap string file) (u : unique_lists) (t : file_tuple)
  : unique_lists :=
  let file1 := tuple_file1 t in
  let file2 := tuple_file2 t in
  if negb (inside_unique_list fs (unique_files1 u) file1)
     && negb (inside_unique_list fs (unique_files2 u) file2)
  then {| unique_files1 := unique_files1 u ++ [file1];
          unique_files2 := unique_files2 u ++ [file2];
          unique_files_final := unique_files_final u ++ [t] |}
  else u.

Definition filter_loop (fs : gmap string file) (files_to_filter : list file_tuple)
  : unique_lists :=
  fold_left (filter_step fs) files_to_filter
            {| unique_files1 := []; unique_files2 := []; unique_files_final := [] |}.

Definition filter_duplicates (fs : gmap string file) (files_to_filter : list file_tuple)
  : list file_tuple :=
  unique_files_final (filter_loop fs files_to_filter).

(** The order of [str]: code point by code point. *)
Definition str_le (a b : string) : Prop := String.leb a b = true.

#[global] Instance str_le_dec : RelDecision str_le.
Proof. intros a b. unfold str_le. apply _. Defined.

(** [l.sort()] on strings. *)
Definition sort (l : list string) : list string := merge_sort str_le l.

(** Text mode turns every line ending into a newline when reading. *)
Definition universal_newlines (content : string) : string :=
  let cr := String "013"%char EmptyString in
  Py.replace cr newline (Py.replace (cr +:+ newline) newline content).

(** *** Decoding

    [open(path, "r")] and [bytes.decode("utf-8")] decode strictly.  The
    encoding of text mode is the locale's: UTF-8 (also under Python's UTF-8
    mode), ISO 8859-1 or ASCII.  A [str] is held as the bytes it was
    decoded from: in these three encodings an ASCII character is the byte
    of that value and no part of another character, so that splitting at a
    newline, [startswith], [split] and [replace] on ASCII characters are
    what they are on the text, and the order of two strings (code point by
    code point) is the order of their bytes. *)
Inductive encoding :=
| UTF_8
| ISO_8859_1
| ASCII.

(** The UTF-8 decoder is between two characters, or inside one with that
    many bytes to come; after the lead bytes [E0], [ED], [F0] and [F4] the
    next byte has a narrower range, which shuts out overlong forms,
    surrogates and code points above [10FFFF]. *)
Inductive decoder_state :=
| Boundary
| Tail1
| Tail2
| Tail3
| AfterE0
| AfterED
| AfterF0
| AfterF4.

Definition in_range (lo hi b : N) : bool := ((lo <=? b) && (b <=? hi))%N.

Definition utf8_step (st : decoder_state) (byte : ascii) : option decoder_state :=
  let b := N_of_ascii byte in
  match st with
  | Boundary =>
      if in_range 0 127 b then Some Boundary
      else if in_range 194 223 b then Some Tail1
      else if in_range 224 224 b then Some AfterE0
      else if in_range 225 236 b then Some Tail2
      else if in_range 237 237 b then Some AfterED
      else if in_range 238 239 b then Some Tail2
      else if in_range 240 240 b then Some AfterF0
      else if in_range 241 243 b then Some Tail3
      else if in_range 244 244 b then Some AfterF4
      else None
  | Tail1 => if in_range 128 191 b then Some Boundary else None
  | Tail2 => if in_range 128 191 b then Some Tail1 else None
  | Tail3 => if in_range 128 191 b then Some Tail2 else None
  | AfterE0 => if in_range 160 191 b then Some Tail1 else None
  | AfterED => if in_range 128 159 b then Some Tail1 else None
  | AfterF0 => if in_range 144 191 b then Some Tail2 else None
  | AfterF4 => if in_range 128 143 b then Some Tail2 else None
  end.

(** One byte in ISO 8859-1 is one character, whatever the byte; in ASCII
    it is one below 128. *)
Definition decode_step (enc : encoding) (st : decoder_state) (byte : ascii)
  : option decoder_state :=
  match enc with
  | UTF_8 => utf8_step st byte
  | ISO_8859_1 =>
      match st with
      | Boundary => Some Boundary
      | _ => None
      end
  | ASCII =>
      match st with
      | Boundary => if in_range 0 127 (N_of_ascii byte) then Some Boundary else None
      | _ => None
      end
  end.

Fixpoint decode_run (enc : encoding) (st : decoder_state) (bytes : string)
  : option decoder_state :=
  match bytes with
  | EmptyString => Some st
  | String byte rest =>
      match decode_step enc st byte with
      | Some st' => decode_run enc st' rest
      | None => None
      end
  end.

(** The bytes decode: the decoder gets through them and ends between two
    characters. *)
Definition decodable (enc : encoding) (bytes : string) : bool :=
  match decode_run enc Boundary bytes with
  | Some Boundary => true
  | _ => false
  end.

(** [open(path, "r")] and [readlines()] under the locale's encoding [enc]:
    the bytes are decoded, then every line ending is turned into a newline,
    then the text is cut into lines. *)
Definition read_from_file (enc : encoding) (fs : gmap string file) (path : string)
  : io_error + list string :=
  match fs !! path with
  | None => inl FileNotFoundError
  | Some Directory => inl IsADirectoryError
  | Some (RegularFile content) =>
      if decodable enc content then inr (Py.readlines (universal_newlines content))
      else inl UnicodeDecodeError
  end.

Definition write_to_file (content path : string) (fs : gmap string file)
  : io_error + gmap string file :=
  match fs !! path with
  | Some Directory => inl IsADirectoryError
  | _ => inr (<[path := RegularFile content]> fs)
  end.

Definition sort_files (enc : encoding) (file1 file2 : string) (fs : gmap string file)
  : io_error + gmap string file :=
  match read_from_file enc fs file1 with
  | inl e => inl e
  | inr f1_content =>
      match read_from_file enc fs file2 with
      | inl e => inl e
      | inr f2_content =>
          let f1_content := sort f1_content in
          let f2_content := sort f2_content in
          match write_to_file (Py.join "" f1_content) file1 fs with
          | inl e => inl e
          | inr fs' => write_to_file (Py.join "" f2_content) file2 fs'
          end
      end
  end.

(** ** The report: paths, summaries and build information *)

(** The failures of the functions below that do not touch the globals. *)
Module Err.
Inductive t :=
| IndexError
| ValueError
| KeyError
| UnicodeDecodeError
| FileNotFoundError
| BadZipFile.
End Err.

(** A Python dict with string keys, in insertion order: [d.get(k)] and
    [d[k] = v]. *)
Fixpoint assoc_get {V} (k : string) (d : list (string * V)) : option V :=
  match d with
  | [] => None
  | (k', v) :: d' => if String.eqb k' k then Some v else assoc_get k d'
  end.

Fixpoint assoc_set {V} (k : string) (v : V) (d : list (string * V)) : list (string * V) :=
  match d with
  | [] => [(k, v)]
  | (k', v') :: d' => if String.eqb k' k then (k', v) :: d' else (k', v') :: assoc_set k v d'
  end.

Section Report.

Context (cfg : config).

Definition get_basename (path : string) : string :=
  let fname := os_path.basename path in
  fst (os_path.splitext fname).

Definition full_filename (path : string) : string := get_filename path.

Definition list_to_str (the_list : list string) : string :=
  Py.join newline the_list +:+ newline.

(** [certpath.index("/META-INF/")] raises [ValueError] when the certificate
    path has no such part. *)
Definition get_apkname_from_cert_path (certpath : string) : Err.t + string :=
  let metainf_index := Py.find "/META-INF/" certpath in
  if metainf_index =? -1 then inl Err.ValueError
  else
    let path_without_metainf := Py.slice_to certpath metainf_index in
    let apkname_indexstart := Py.rfind "/" path_without_metainf + 1 in
    let apkname := Py.slice_from path_without_metainf apkname_indexstart in
    inr apkname.

(** The loop over the global [apk_files]; [None] when it runs to its end. *)
Fixpoint get_apk_disk_files_from_name_in (apk_files : list string) (apkname : string)
  : Err.t + option (string * string) :=
  match apk_files with
  | [] => inr None
  | apk_file_pair :: rest =>
      match Py.split " " apk_file_pair !! 0%nat, Py.split " " apk_file_pair !! 1%nat with
      | Some apk1, Some apk2 =>
          if Py.contains apkname apk1 && Py.contains apkname apk2
          then inr (Some (apk1, apk2))
          else get_apk_disk_files_from_name_in rest apkname
      | _, _ => inl Err.IndexError
      end
  end.

Definition get_apk_disk_files_from_name (g : globals) (apkname : string)
  : Err.t + option (string * string) :=
  get_apk_disk_files_from_name_in (apk_files g) apkname.

Definition create_diff_text (file_diff the_diff : string) (text_file : bool) : string :=
  if text_file then file_diff
  else the_diff +:+ newline +:+ file_diff +:+ newline.

Definition get_full_path (parent_path path : string) : string :=
  let relative_path := get_relative_path cfg path in
  let relative_dirs := Py.split "/" relative_path in
  fold_left
    (fun full_path directory =>
       if negb (elem directory (Py.split "/" full_path))
       then full_path +:+ ("/" +:+ directory)
       else full_path)
    relative_dirs parent_path.

(** The inner loop of [merge_path_with_files], over the pairs recorded under
    one parent path. *)
Fixpoint merge_pairs (parent_path : string) (disk_paths : list string)
    (full_list : list file_tuple) : Err.t + list file_tuple :=
  match disk_paths with
  | [] => inr full_list
  | file_pair :: rest =>
      match Py.split " " file_pair !! 0%nat, Py.split " " file_pair !! 1%nat with
      | Some file1, Some file2 =>
          let full_path := get_full_path parent_path file1 in
          merge_pairs parent_path rest (full_list ++ [(full_path, file1, file2)])
      | _, _ => inl Err.IndexError
      end
  end.

Fixpoint merge_entries (items : dict) (full_list : list file_tuple)
  : Err.t + list file_tuple :=
  match items with
  | [] => inr full_list
  | (parent_path, disk_paths) :: rest =>
      match merge_pairs parent_path disk_paths full_list with
      | inl e => inl e
      | inr full_list' => merge_entries rest full_list'
      end
  end.

Definition merge_path_with_files (all_diffs : dict) : Err.t + list file_tuple :=
  merge_entries all_diffs [].

Definition get_target_dir_and_file_from_path (path : string) : string * string :=
  let last_slash := Py.rfind "/" path in
  let directory_part := Py.slice_to path last_slash in
  let file_part := Py.slice_from path (last_slash + 1) in
  let target_dir := OUTPUT_DIR cfg +:+ "/" +:+ directory_part in
  let target_file := target_dir +:+ "/" +:+ file_part +:+ ".diff" in
  (target_dir, target_file).

Definition create_block_summary (ext : string) (files : list file_tuple) : string :=
  let summary := "================" +:+ newline in
  let summary := summary +:+ "BEGIN " +:+ ext +:+ " files, "
                 +:+ Py.str_of_int (Z.of_nat (length files)) +:+ " found:" +:+ newline in
  let summary :=
    fold_left
      (fun summary file_pair =>
         let path := tuple_path file_pair in
         let file1 := tuple_file1 file_pair in
         let file2 := tuple_file2 file_pair in
         let summary := summary +:+ path +:+ newline in
         let summary := summary +:+ String "009"%char file1 +:+ newline in
         summary +:+ String "009"%char file2 +:+ newline +:+ newline)
      files summary in
  let summary := summary +:+ "END " +:+ ext +:+ " files" +:+ newline in
  summary +:+ "================" +:+ newline +:+ newline.

Definition summary_for_uncomparable_files (g : globals) : string :=
  let nr_uncomparable_files := Z.of_nat (length (uncomparable_files g)) in
  if 0 <? nr_uncomparable_files then
    Py.str_of_int nr_uncomparable_files
    +:+ " files could not be automatically compared, these were:"
    +:+ list_to_str (uncomparable_files g)
  else "".

(** The two dicts [summary_for_extensions] fills. *)
Record extension_tables := {
  ext_summary : list (string * Z);
  file_extensions : list (string * list file_tuple)
}.

(** One round of the loop of [summary_for_extensions]; a read of a missing
    key is a [KeyError]. *)
Definition summary_step (tables : extension_tables) (file_pair : file_tuple)
  : Err.t + extension_tables :=
  let file1 := tuple_file1 file_pair in
  let ext := extension file1 in
  let ext := if String.eqb ext "" then "no-extension" else ext in
  let tables :=
    match assoc_get ext (file_extensions tables) with
    | None => {| ext_summary := assoc_set ext 0 (ext_summary tables);
                 file_extensions := assoc_set ext [] (file_extensions tables) |}
    | Some _ => tables
    end in
  match assoc_get ext (ext_summary tables), assoc_get ext (file_extensions tables) with
  | Some count, Some files =>
      inr {| ext_summary := assoc_set ext (count + 1) (ext_summary tables);
             file_extensions := assoc_set ext (files ++ [file_pair]) (file_extensions tables) |}
  | _, _ => inl Err.KeyError
  end.

Fixpoint summary_loop (file_paths : list file_tuple) (tables : extension_tables)
  : Err.t + extension_tables :=
  match file_paths with
  | [] => inr tables
  | file_pair :: rest =>
      match summary_step tables file_pair with
      | inl e => inl e
      | inr tables' => summary_loop rest tables'
      end
  end.

Definition summary_for_extensions (file_paths : list file_tuple)
  : Err.t + extension_tables :=
  summary_loop file_paths {| ext_summary := []; file_extensions := [] |}.

(** The loop of [extract_build_info] over the lines of [SYSTEM/build.prop];
    the tuple assignment [prop, info = prop_info.split("=")] raises
    [ValueError] unless the split has exactly two parts. *)
Fixpoint build_info_loop (build_props : list string) (build_info : list (string * string))
  : Err.t + list (string * string) :=
  match build_props with
  | [] => inr build_info
  | prop_info :: rest =>
      if Py.startswith "#" prop_info || String.eqb prop_info ""
      then build_info_loop rest build_info
      else
        match Py.split "=" prop_info with
        | [prop; info] =>
            if elem prop ["ro.system.build.date.utc"]
            then build_info_loop rest (build_info ++ [(prop, info)])
            else build_info_loop rest build_info
        | _ => inl Err.ValueError
        end
  end.

(** [zipfile.ZipFile(path, mode="r")] followed by [zfile.read(name)]: the
    bytes of the member, or the exception that opening the archive or
    reading the member raises ([FileNotFoundError], [BadZipFile],
    [KeyError] for a member that is not there). *)
Definition zip_reader : Type := string -> string -> Err.t + string.

Definition extract_build_info (zip_read : zip_reader) (zip_target : string)
  : Err.t + list (string * string) :=
  match zip_read zip_target "SYSTEM/build.prop" with
  | inl e => inl e
  | inr bytes =>
      if decodable UTF_8 bytes then
        let build_props := Py.split "010" bytes in
        build_info_loop build_props []
      else inl Err.UnicodeDecodeError
  end.

(** The lines [extract] prints for the build information found. *)
Definition extract_lines (build_info : list (string * string)) : list string :=
  let shell_props := [("BUILD_DATETIME", "ro.system.build.date.utc")] in
  flat_map
    (fun entry =>
       flat_map
         (fun shell_prop =>
            if String.eqb (snd shell_prop) (fst entry)
            then [snd shell_prop +:+ "=" +:+ snd entry] else [])
         shell_props)
    build_info.

End Report.

(** A world in which every command prints nothing and exits with 0. *)
Definition silent_world : world :=
  {| popen := fun _ _ => ([], None);
     isdir := fun _ _ => false;
     isfile := fun _ _ => false;
     set_rank := fun _ _ => O;
     recursion_limit := 1000 |}.

(** The path leads to a regular file. *)
Definition is_regular (fs : gmap string file) (path : string) : Prop :=
  exists content, fs !! path = Some (RegularFile content).

(** A complete line: some text without a newline, and the newline that
    ends it. *)
Definition is_line (x : string) : Prop :=
  exists body, x = body +:+ newline /\ Py.contains newline body = false.

(** A line of [build.prop] that is neither a comment nor empty and does not
    split into exactly two parts at [=]. *)
Definition malformed_property_line (line : string) : Prop :=
  Py.startswith "#" line = false /\ line <> "" /\ length (Py.split "=" line) <> 2%nat.

(** The key [summary_for_extensions] files a leaf under: the extension of
    its side-1 file on disk. *)
Definition summary_key (file_pair : file_tuple) : string :=
  if String.eqb (extension (tuple_file1 file_pair)) "" then "no-extension"
  else extension (tuple_file1 file_pair).

(** The leaves of [file_paths] filed under [ext], in their order. *)
Definition filed_under (ext : string) (file_paths : list file_tuple) : list file_tuple :=
  List.filter (fun file_pair => String.eqb (summary_key file_pair) ext) file_paths.

(** The two dicts describe the leaves seen so far. *)
Definition tables_describe (seen : list file_tuple) (tables : extension_tables) : Prop :=
  forall ext,
    assoc_get ext (file_extensions tables)
    = match filed_under ext seen with [] => None | files => Some files end
    /\ assoc_get ext (ext_summary tables)
       = match filed_under ext seen with
         | [] => None
         | files => Some (Z.of_nat (length files))
         end.

(** Whatever [m1] does without running into the recursion limit, [m2] does
    as well. *)
Definition simulates {A} (m1 m2 : M A) : Prop :=
  forall g r g', m1 g = (r, g') -> r <> Raise RecursionError -> m2 g = (r, g').

(** [s] without the character [c]. *)
Fixpoint delete_char (c : ascii) (s : string) : string :=
  match s with
  | EmptyString => EmptyString
  | String x s' => if Ascii.eqb x c then delete_char c s' else String x (delete_char c s')
  end.

(** * Vocabulary of the properties *)

Section Vocabulary.

Context (cfg : config) (w : world) (fs : gmap string file).

(** The first word of a command, as [cmd.split(" ")[0]] gives it. *)
Definition first_word (cmd : string) : string := hd EmptyString (Py.split " " cmd).

(** The success criterion in the words of the specification: [diff] and
    [grep] fail on status 2 only, every other program on any status but 0. *)
Definition abnormal_exit (cmd : string) (status : Z) : Prop :=
  if elem (first_word cmd) ["diff"; "grep"] then status = 2 else status <> 0.

(** The globals once [cmd] has been announced and recorded. *)
Definition after_command (cmd : string) (g : globals) : globals :=
  add_command cmd (if QUIET cfg then g else add_stdout cmd g).

(** [d[k]], as [d.get(k)]. *)
Fixpoint dict_get (k : string) (d : dict) : option (list string) :=
  match d with
  | [] => None
  | (k', v) :: d' => if String.eqb k' k then Some v else dict_get k d'
  end.

(** The extensions, without their dot, that the comparator has a strategy
    for. *)
Definition strategy_extensions : list string :=
  ["img"; "apex"; "capex"; "apk"; "zip"; "gz"; "lz4"; "ext4"].

(** The command that classifies a file. *)
Definition file_type_command (path : string) : string :=
  "file " +:+ path +:+ " | " +:+
  ("awk -F " +:+ dquote +:+ ": " +:+ dquote +:+ " '{print $2}'").

Definition no_globals : globals :=
  {| all_commands := []; uncomparable_files := []; apk_files := [];
     stdout := []; stderr := [] |}.

Definition demo_config : config :=
  {| ZIP_FILENAME_1 := "old.zip"; ZIP_FILENAME_2 := "new.zip"; OUTPUT_DIR := "diffs";
     QUIET := false; GRADLEW_PATH := "~/gradlew"; argv0 := "./catf.py" |}.

(** A world in which every command prints [ASCII text] and exits with 0. *)
Definition text_world : world :=
  {| popen := fun _ _ => (["ASCII text" +:+ newline], None);
     isdir := fun _ _ => false;
     isfile := fun _ _ => false;
     set_rank := fun _ _ => O;
     recursion_limit := 1000 |}.

(** A world in which [file] answers [data] for every path, [unzip] fails
    with exit code 9 (which [close()] reports as [9 << 8]), and every other
    command prints nothing and exits with 0. *)
Definition data_world : world :=
  {| popen := fun _ cmd =>
                if Py.startswith "file " cmd then (["data" +:+ newline], None)
                else if Py.startswith "unzip " cmd then ([], Some 2304)
                else ([], None);
     isdir := fun _ _ => false;
     isfile := fun _ _ => false;
     set_rank := fun _ _ => O;
     recursion_limit := 1000 |}.

Definition boot1 : string := "/tmp/target-files/old.zip/IMAGES/boot.img".
Definition modem1 : string := "/tmp/target-files/old.zip/RADIO/modem.bin".
Definition modem2 : string := "/tmp/target-files/new.zip/RADIO/modem.bin".
Definition userdata1 : string := "/tmp/target-files/old.zip/IMAGES/userdata.img".
Definition userdata2 : string := "/tmp/target-files/new.zip/IMAGES/userdata.img".
Definition mail1 : string := "/tmp/target-files/old.zip/SYSTEM/app/Mail.apk".
Definition mail2 : string := "/tmp/target-files/new.zip/SYSTEM/app/Mail.apk".

Definition notes1 : string := "/tmp/target-files/old.zip/notes.zip".
Definition notes2 : string := "/tmp/target-files/new.zip/notes.zip".

(** A tuple has a side match among [kept] when its side-1 file equals the
    side-1 file of a kept tuple, or its side-2 file the side-2 file of a
    kept tuple; the two kept tuples need not be the same one. *)
Definition side_match (kept : list file_tuple) (t : file_tuple) : Prop :=
  exists k, k ∈ kept /\
    (files_are_equal fs (tuple_file1 k) (tuple_file1 t) = true
     \/ files_are_equal fs (tuple_file2 k) (tuple_file2 t) = true).

(** A tuple has a pair match when both of its files equal the files of
    one and the same kept tuple. *)
Definition pair_match (kept : list file_tuple) (t : file_tuple) : Prop :=
  exists k, k ∈ kept /\
    files_are_equal fs (tuple_file1 k) (tuple_file1 t) = true
    /\ files_are_equal fs (tuple_file2 k) (tuple_file2 t) = true.

(** The tuple [t] that comes after the tuples [pre] is dropped. *)
Definition dropped (pre : list file_tuple) (t : file_tuple) : Prop :=
  filter_duplicates fs (pre ++ [t]) = filter_duplicates fs pre.

(** The claim C1 as the specification words it, for one list: a tuple is
    dropped exactly when both of its files match one earlier kept pair. *)
Definition drops_on_pair_match_only (l : list file_tuple) : Prop :=
  forall pre t post, l = pre ++ t :: post ->
    (dropped pre t <-> pair_match (filter_duplicates fs pre) t).

(** Two assets with the same old content that changed in different ways. *)
Definition two_assets : gmap string file :=
  <["/old/a/logo.png" := RegularFile "LOGO"]>
  (<["/new/a/logo.png" := RegularFile "LOGO-RED"]>
  (<["/old/b/logo.png" := RegularFile "LOGO"]>
  (<["/new/b/logo.png" := RegularFile "LOGO-BLUE"]> ∅))).

Definition two_asset_tuples : list file_tuple :=
  [("a/logo.png", "/old/a/logo.png", "/new/a/logo.png");
   ("b/logo.png", "/old/b/logo.png", "/new/b/logo.png")].



(** The commands [cmds], run in this order after [history], all exited
    normally. *)
Fixpoint all_normal (history cmds : list string) : Prop :=
  match cmds with
  | [] => True
  | cmd :: rest =>
      shell_successfull cmd (snd (popen w history cmd)) = true
      /\ all_normal (history ++ [cmd]) rest
  end.

(** The last of [cmds] exited abnormally, and the ones before it
    normally. *)
Definition stops_at_abnormal (history cmds : list string) : Prop :=
  exists before cmd,
    cmds = before ++ [cmd]
    /\ all_normal history before
    /\ shell_successfull cmd (snd (popen w (history ++ before) cmd)) = false.

(** What every piece of the comparator below the top-level loop obeys:
    it leaves [uncomparable_files] alone, it only adds to [all_commands],
    and it raises [UncomparableFilesException] exactly when the last
    command it ran exited abnormally, in which case that command is the
    first one to do so. *)
Definition shell_discipline {A} (m : M A) : Prop :=
  forall g r g', m g = (r, g') ->
    uncomparable_files g' = uncomparable_files g
    /\ exists cmds,
        all_commands g' = all_commands g ++ cmds
        /\ match r with
           | Raise (UncomparableFilesException _) => stops_at_abnormal (all_commands g) cmds
           | _ => all_normal (all_commands g) cmds
           end.

(** The comparison of the entry [file_pair], started in [g0], ran into a
    command that exited abnormally: [compare_files] raised, the handler
    recorded the pair and printed the message, and the globals are [g']. *)
Definition recorded_uncomparable (file_pair : string) (g0 g' : globals) : Prop :=
  exists file1 file2 message g1,
    Py.split " " file_pair !! 0%nat = Some file1
    /\ Py.split " " file_pair !! 1%nat = Some file2
    /\ compare_files cfg w file1 file2 (get_relative_path cfg file1) g0
       = (Raise (UncomparableFilesException message), g1)
    /\ g' = add_stdout message (add_uncomparable (file1 +:+ " " +:+ file2) g1)
    /\ uncomparable_files g' = uncomparable_files g0 ++ [file1 +:+ " " +:+ file2].

(** The two ways a run of the loop that started in [g] can end with [r] in
    [g']: no command exited abnormally and [uncomparable_files] is
    untouched, or the last command did, the pair being compared was
    recorded and the run was stopped. *)
Definition loop_outcome (initial_diff : list string) (all_diffs : dict)
    (g : globals) (r : result dict) (g' : globals) : Prop :=
  exists cmds,
    all_commands g' = all_commands g ++ cmds
    /\ ((all_normal (all_commands g) cmds
         /\ uncomparable_files g' = uncomparable_files g)
        \/ (stops_at_abnormal (all_commands g) cmds
            /\ r = Raise (SystemExit 1)
            /\ exists before file_pair after acc g0,
                initial_diff = before ++ file_pair :: after
                /\ comparison_loop cfg w before all_diffs g = (Ok acc, g0)
                /\ uncomparable_files g0 = uncomparable_files g
                /\ recorded_uncomparable file_pair g0 g')).

(** [os.popen(cmd).close()] on POSIX, for a process that ended with the
    exit status [returncode]: [None] for 0, and the status shifted left by
    8 for every other. *)
Definition close_value (returncode : Z) : option Z :=
  if returncode =? 0 then None else Some (Z.shiftl returncode 8).

(** A world in which every command prints nothing and ends with exit
    status 2. *)
Definition trouble_world : world :=
  {| popen := fun _ _ => ([], close_value 2);
     isdir := fun _ _ => false;
     isfile := fun _ _ => false;
     set_rank := fun _ _ => O;
     recursion_limit := 1000 |}.

(** The command [unzip] runs. *)
Definition unzip_command (src dst : string) : string :=
  "unzip -q " +:+ src +:+ " -d " +:+ dst.

(** The claim C3 as the specification words it, for one run of
    [compare_target_files] and for the extraction command [unzip], one
    of the commands the claim is about: when the last command of the run is
    the unzip of [src] and it exited abnormally, a pair that [src] is a
    file of is in [uncomparable_files] at the end. *)
Definition records_the_failing_pair (zip1 zip2 : string) (force_clean : bool)
    (g : globals) : Prop :=
  forall r g' before src dst,
    compare_target_files cfg w zip1 zip2 force_clean g = (r, g') ->
    all_commands g' = all_commands g ++ before ++ [unzip_command src dst] ->
    shell_successfull (unzip_command src dst)
      (snd (popen w (all_commands g ++ before) (unzip_command src dst))) = false ->
    exists pair, pair ∈ uncomparable_files g' /\ src ∈ Py.split " " pair.

Definition outer1 : string := "/tmp/target-files/old.zip/outer.zip".
Definition outer2 : string := "/tmp/target-files/new.zip/outer.zip".
Definition inner1 : string := "/tmp/comparison/zip/outer.zip/old.zip/inner.zip".
Definition inner2 : string := "/tmp/comparison/zip/outer.zip/new.zip/inner.zip".

(** A world with one differing archive [outer.zip] in the target files and
    one differing archive [inner.zip] inside it; [file] answers [data],
    and the unzip of [inner.zip] fails with exit status 9. *)
Definition nested_world : world :=
  {| popen := fun _ cmd =>
                if Py.startswith "file " cmd then (["data" +:+ newline], None)
                else if Py.startswith "unzip " cmd
                then ([], if Py.contains "inner.zip" cmd then close_value 9 else None)
                else if Py.startswith "diff " cmd
                then (if Py.contains "/tmp/comparison/" cmd
                      then [inner1 +:+ " " +:+ inner2 +:+ newline]
                      else [outer1 +:+ " " +:+ outer2 +:+ newline], None)
                else ([], None);
     isdir := fun _ _ => false;
     isfile := fun _ _ => false;
     set_rank := fun _ _ => O;
     recursion_limit := 1000 |}.




End Vocabulary.

(** The globals at the end of a run of the loop over one differing package
    whose extraction fails. *)
Definition failed_unzip_globals : globals :=
  Eval vm_compute in
    snd (comparison_loop demo_config data_world [mail1 +:+ " " +:+ mail2] [] no_globals).

(** * Properties *)

(** ** The shell wrapper *)

Lemma split_nonempty sep s : Py.split sep s <> [].
Proof.
  destruct s as [|c s]; simpl; [discriminate|].
  destruct (Ascii.eqb c sep); [discriminate|].
  destruct (Py.split sep s); discriminate.
Qed.

Lemma shell_successfull_false cmd exit_code :
  shell_successfull cmd exit_code = false <->
  exists status, exit_code = Some status /\ abnormal_exit cmd status.
Proof.
  unfold shell_successfull, abnormal_exit, first_word.
  destruct exit_code as [code|].
  - destruct (elem _ ["grep"; "diff"]) eqn:E.
    + assert (elem (hd "" (Py.split " " cmd)) ["diff"; "grep"] = true) as ->.
      { unfold elem in *. simpl in *. destruct (String.eqb _ "grep"), (String.eqb _ "diff"); auto. }
      rewrite negb_false_iff, Z.eqb_eq. split; [eauto|]. intros (? & [= <-] & ?); done.
    + assert (elem (hd "" (Py.split " " cmd)) ["diff"; "grep"] = false) as ->.
      { unfold elem in *. simpl in *. destruct (String.eqb _ "grep"), (String.eqb _ "diff"); auto. }
      rewrite Z.eqb_neq. split; [eauto|]. intros (? & [= <-] & ?); done.
  - split; [discriminate|]. intros (? & ? & _); discriminate.
Qed.

Section ShellWrapper.

Context (cfg : config) (w : world).

Lemma run_shell_command_unfold cmd g :
  run_shell_command cfg w cmd g =
    let out := popen w (all_commands g) cmd in
    if shell_successfull cmd (snd out)
    then (Ok out, after_command cfg cmd g)
    else (Raise (UncomparableFilesException
                   ("command '" +:+ cmd +:+ "' exited with status: "
                    +:+ str_of_exit_code (snd out))),
          after_command cfg cmd g).
Proof.
  unfold run_shell_command, bind, popen_run, after_command, print, ret, raise.
  destruct (QUIET cfg); simpl;
    destruct (shell_successfull cmd _); simpl; try reflexivity;
    destruct (popen w (all_commands g) cmd); reflexivity.
Qed.

(** In terms of the value [close()] returns, [run_shell_command] raises
    [UncomparableFilesException] exactly when that value is not [None] and
    abnormal: 2 for a command whose first word is [diff] or [grep],
    anything but 0 for the others.  It raises nothing else. *)
Lemma run_shell_command_raises_iff_abnormal (cmd : string) (g : globals) :
  let out := popen w (all_commands g) cmd in
  ((exists message g',
       run_shell_command cfg w cmd g = (Raise (UncomparableFilesException message), g'))
   <-> (exists status, snd out = Some status /\ abnormal_exit cmd status))
  /\ ((exists r g', run_shell_command cfg w cmd g = (Ok r, g'))
      <-> ~ (exists status, snd out = Some status /\ abnormal_exit cmd status)).
Proof.
  intros out. rewrite run_shell_command_unfold. fold out. cbv zeta.
  rewrite <- shell_successfull_false.
  destruct (shell_successfull cmd (snd out)) eqn:E.
  - split.
    + split; [intros (? & ? & [=])|discriminate].
    + split; [discriminate|eauto].
  - split.
    + split; eauto.
    + split; [intros (? & ? & [=])|congruence].
Qed.

(** The value [close()] returns for an exit status is never 2, and it is
    [None] for the exit status 0 only. *)
Lemma shell_successfull_close_value (cmd : string) (returncode : Z) :
  shell_successfull cmd (close_value returncode)
  = elem (first_word cmd) ["diff"; "grep"] || (returncode =? 0).
Proof.
  unfold close_value. destruct (Z.eqb_spec returncode 0) as [->|Hne].
  - by rewrite orb_true_r.
  - rewrite orb_false_r. unfold shell_successfull, first_word. cbv zeta.
    assert (elem (hd "" (Py.split " " cmd)) ["grep"; "diff"]
            = elem (hd "" (Py.split " " cmd)) ["diff"; "grep"]) as ->.
    { unfold elem. cbn [existsb]. rewrite !orb_false_r. apply orb_comm. }
    rewrite Z.shiftl_mul_pow2 by lia.
    destruct (elem _ _).
    + apply negb_true_iff, Z.eqb_neq. lia.
    + apply Z.eqb_neq. lia.
Qed.

(** C10: where [close()] returns [None] for the exit status 0 and the
    status shifted left by 8 for every other, [run_shell_command] raises
    [UncomparableFilesException] exactly when the exit status is abnormal
    and the command is not a [diff] or a [grep].  A [diff] or a [grep]
    always returns normally: with the exit status 1, as the claim has it,
    but also with the exit status 2, which the claim and the test
    [exit_code != 2] of the code take for abnormal. *)
Theorem diff_exit_status_is_never_abnormal (cmd : string) (g : globals) (returncode : Z) :
  snd (popen w (all_commands g) cmd) = close_value returncode ->
  ((exists message,
       run_shell_command cfg w cmd g
       = (Raise (UncomparableFilesException message), after_command cfg cmd g))
   <-> abnormal_exit cmd returncode /\ elem (first_word cmd) ["diff"; "grep"] = false)
  /\ (elem (first_word cmd) ["diff"; "grep"] = true ->
      run_shell_command cfg w cmd g
      = (Ok (popen w (all_commands g) cmd), after_command cfg cmd g)).
Proof.
  intros Hclose. rewrite run_shell_command_unfold. cbv zeta.
  rewrite Hclose, shell_successfull_close_value, <- Hclose.
  unfold abnormal_exit.
  destruct (elem (first_word cmd) ["diff"; "grep"]); cbn [orb].
  - split; [|done]. split; [by intros (? & [=])|by intros [_ [=]]].
  - split; [|done]. destruct (Z.eqb_spec returncode 0) as [->|Hne].
    + split; [by intros (? & [=])|by intros [? _]].
    + split; [done|]. intros _. eauto.
Qed.

End ShellWrapper.

(** ** The recursive comparator: nodes that end at once *)

Lemma dict_get_set k v d : dict_get k (dict_set k v d) = Some v.
Proof.
  induction d as [|[k' v'] d IH]; simpl.
  - by rewrite String.eqb_refl.
  - destruct (String.eqb k' k) eqn:E; simpl; rewrite E; auto.
Qed.

Section Nodes.

Context (cfg : config) (w : world).

Lemma is_text_file_globals path g r g' :
  is_text_file cfg w path g = (r, g') ->
  g' = after_command cfg (file_type_command path) g.
Proof.
  unfold is_text_file, get_file_type, bind. fold (file_type_command path).
  rewrite run_shell_command_unfold. cbv zeta.
  destruct (shell_successfull _ _).
  - unfold item. destruct (_ !! _); unfold ret, raise; congruence.
  - congruence.
Qed.

Lemma after_command_all_commands cmd g :
  all_commands (after_command cfg cmd g) = all_commands g ++ [cmd].
Proof. unfold after_command. by destruct (QUIET cfg). Qed.

Lemma after_command_uncomparable_files cmd g :
  uncomparable_files (after_command cfg cmd g) = uncomparable_files g.
Proof. unfold after_command. by destruct (QUIET cfg). Qed.

Lemma after_command_apk_files cmd g :
  apk_files (after_command cfg cmd g) = apk_files g.
Proof. unfold after_command. by destruct (QUIET cfg). Qed.

(** C4: a pair whose extensions differ is a fatal error.  The comparator
    writes the error message and exits with status 1; no command is run
    (nothing is classified or extracted) and no dict of differences comes
    back.  The loop of [compare_target_files] does not catch the exit, so
    the run ends there. *)
Theorem differing_extensions_are_fatal (file1 file2 : string) :
  extension file1 <> extension file2 ->
  let message := get_progname cfg +:+ ": error: " +:+
                 ("cannot compare '" +:+ extension file1 +:+ "' and '" +:+ extension file2
                  +:+ "' files. Not the same extension!") in
  (forall depth parent_dir all_diffs g,
      compare_files_recursive cfg w (S depth) file1 file2 parent_dir all_diffs g
      = (Raise (SystemExit 1), add_stderr message g))
  /\ (forall all_diffs file_pair g,
         recursion_limit w <> O ->
         Py.split " " file_pair !! 0%nat = Some file1 ->
         Py.split " " file_pair !! 1%nat = Some file2 ->
         compare_target_pair cfg w all_diffs file_pair g
         = (Raise (SystemExit 1), add_stderr message g)).
Proof.
  intros Hne message.
  assert (forall depth parent_dir all_diffs g,
             compare_files_recursive cfg w (S depth) file1 file2 parent_dir all_diffs g
             = (Raise (SystemExit 1), add_stderr message g)) as Hrec.
  { intros. cbn [compare_files_recursive]. cbv zeta.
    apply String.eqb_neq in Hne. rewrite Hne. reflexivity. }
  split; [exact Hrec|].
  intros all_diffs file_pair g Hlim H0 H1.
  unfold compare_target_pair, item. rewrite H0, H1.
  unfold bind at 1 2, ret at 1 2. unfold try_except, bind, compare_files.
  destruct (recursion_limit w) as [|depth]; [done|].
  unfold bind. by rewrite Hrec.
Qed.

(** C5: a pair whose extension has no strategy and whose first file is not
    text is recorded as it is under the current parent path, and the
    comparator returns normally.  The only command run is the one that
    classified the first file. *)
Theorem unsupported_pair_is_leaf (depth : nat) (file1 file2 parent_dir : string)
    (all_diffs : dict) (g g1 : globals) :
  extension file1 = extension file2 ->
  elem (Py.slice_from (extension file1) 1) strategy_extensions = false ->
  is_text_file cfg w file1 (add_stdout ("comparing " +:+ parent_dir +:+ " ...") g)
  = (Ok false, g1) ->
  let pair := file1 +:+ " " +:+ file2 in
  compare_files_recursive cfg w (S depth) file1 file2 parent_dir all_diffs g
  = (Ok (Some parent_dir, [pair], dict_set parent_dir [pair] all_diffs),
     add_stdout ("unsupported file! " +:+ file1) g1)
  /\ dict_get parent_dir (dict_set parent_dir [pair] all_diffs) = Some [pair]
  /\ all_commands g1 = all_commands g ++ [file_type_command file1]
  /\ uncomparable_files g1 = uncomparable_files g
  /\ apk_files g1 = apk_files g.
Proof.
  intros Hext Hnone Htext pair.
  split; [|split; [apply dict_get_set|]].
  - cbn [compare_files_recursive]. cbv zeta.
    rewrite <- Hext, String.eqb_refl. cbn [negb].
    unfold bind at 1. unfold print at 1.
    unfold elem, strategy_extensions in Hnone. cbn [existsb] in Hnone.
    repeat (apply orb_false_elim in Hnone; destruct Hnone as [? Hnone]).
    repeat match goal with
           | H : String.eqb _ _ = false |- _ => rewrite H; clear H
           end.
    unfold bind at 1. rewrite Htext. reflexivity.
  - apply is_text_file_globals in Htext. subst g1.
    rewrite after_command_all_commands, after_command_uncomparable_files,
      after_command_apk_files. done.
Qed.

(** C6: the userdata image is skipped.  [compare_image_files] returns the
    empty list and runs no command, and the node returns with no
    difference recorded. *)
Theorem userdata_image_is_skipped (depth : nat) (file1 file2 parent_dir : string)
    (all_diffs : dict) (g : globals) :
  get_filename file1 = "userdata.img" ->
  extension file1 = ".img" ->
  extension file2 = ".img" ->
  compare_image_files cfg w file1 file2 g = (Ok [], g)
  /\ compare_files_recursive cfg w (S depth) file1 file2 parent_dir all_diffs g
     = (Ok (Some parent_dir, [], all_diffs),
        add_stdout ("comparing " +:+ parent_dir +:+ " ...") g).
Proof.
  intros Hname Hext1 Hext2.
  assert (forall g, compare_image_files cfg w file1 file2 g = (Ok [], g)) as Himg.
  { intros. unfold compare_image_files. cbv zeta. rewrite Hname. reflexivity. }
  split; [apply Himg|].
  cbn [compare_files_recursive]. cbv zeta.
  rewrite Hext1, Hext2. cbn [String.eqb Ascii.eqb Bool.eqb negb].
  replace (Py.slice_from ".img" 1) with "img" by reflexivity.
  cbn [String.eqb Ascii.eqb Bool.eqb].
  unfold bind at 1. unfold print at 1.
  unfold bind at 1. rewrite Himg. reflexivity.
Qed.

(** What holds of C2: a text file whose extension is not a container
    extension is a terminal node; the pair is recorded under the current
    parent path and the only command run is the one that classified it. *)
Lemma text_pair_without_container_extension_is_terminal (depth : nat)
    (file1 file2 parent_dir : string) (all_diffs : dict) (g g1 : globals) :
  extension file1 = extension file2 ->
  String.eqb (Py.slice_from (extension file1) 1) "img" = false ->
  can_extract_further [file1 +:+ " " +:+ file2] = [] ->
  is_text_file cfg w file1 (add_stdout ("comparing " +:+ parent_dir +:+ " ...") g)
  = (Ok true, g1) ->
  let pair := file1 +:+ " " +:+ file2 in
  compare_files_recursive cfg w (S depth) file1 file2 parent_dir all_diffs g
  = (Ok (Some parent_dir, [pair], dict_set parent_dir [pair] all_diffs), g1)
  /\ all_commands g1 = all_commands g ++ [file_type_command file1].
Proof.
  intros Hext Himg Hnone Htext pair. split.
  - cbn [compare_files_recursive]. cbv zeta.
    rewrite <- Hext, String.eqb_refl, Himg. cbn [negb].
    unfold bind at 1. unfold print at 1.
    unfold bind at 1. rewrite Htext.
    unfold after_extraction. rewrite Hnone. reflexivity.
  - apply is_text_file_globals in Htext. subst g1.
    by rewrite after_command_all_commands.
Qed.

End Nodes.

(** ** A text file that carries a container extension *)

Lemma text_world_is_text path g :
  is_text_file demo_config text_world path g
  = (Ok true, after_command demo_config (file_type_command path) g).
Proof.
  unfold is_text_file, get_file_type, bind. fold (file_type_command path).
  rewrite run_shell_command_unfold. reflexivity.
Qed.

Lemma text_container_never_returns depth :
  forall parent_dir all_diffs g,
    uncomparable_files g = [] ->
    exists g', compare_files_recursive demo_config text_world depth notes1 notes2
                 parent_dir all_diffs g = (Raise RecursionError, g').
Proof.
  induction depth as [|depth IH]; intros parent_dir all_diffs g Hun.
  - eexists. reflexivity.
  - cbn [compare_files_recursive]. cbv zeta.
    replace (extension notes1) with ".zip" by reflexivity.
    replace (extension notes2) with ".zip" by reflexivity.
    replace (Py.slice_from ".zip" 1) with "zip" by reflexivity.
    cbn [String.eqb Ascii.eqb Bool.eqb negb].
    unfold bind at 1. unfold print at 1.
    unfold bind at 1. rewrite text_world_is_text.
    unfold after_extraction.
    replace (can_extract_further [notes1 +:+ " " +:+ notes2])
      with [notes1 +:+ " " +:+ notes2] by reflexivity.
    unfold bind at 1. unfold read_uncomparable_files at 1.
    rewrite after_command_uncomparable_files. cbn [uncomparable_files add_stdout].
    rewrite Hun.
    replace (set_difference text_world [notes1 +:+ " " +:+ notes2] [])
      with [notes1 +:+ " " +:+ notes2] by reflexivity.
    replace (set_difference text_world [notes1 +:+ " " +:+ notes2]
               [notes1 +:+ " " +:+ notes2])
      with (@nil string) by reflexivity.
    cbn [length Nat.ltb Nat.leb Nat.eqb for_each].
    replace (Py.split " " (notes1 +:+ " " +:+ notes2)) with [notes1; notes2] by reflexivity.
    unfold item. cbn [lookup list_lookup].
    unfold bind at 1 2 3. unfold ret at 1 2.
    unfold bind.
    edestruct IH as [g' ->]; [|eexists; reflexivity].
    rewrite after_command_uncomparable_files. exact Hun.
Qed.

(** C2, where the code departs from it: a text file named [notes.zip] is
    not a terminal node.  The singleton list built for it passes through
    [can_extract_further], which goes by the extension, so the comparator
    calls itself on the same pair again and again; however deep the
    interpreter lets it go it ends in [RecursionError], and no difference is
    ever recorded. *)
Theorem text_file_with_container_extension_recurses :
  (forall depth, exists g',
      compare_files_recursive demo_config text_world depth notes1 notes2
        "notes.zip" [] no_globals = (Raise RecursionError, g'))
  /\ exists g', compare_files demo_config text_world notes1 notes2 "notes.zip" no_globals
                = (Raise RecursionError, g').
Proof.
  split.
  - intros depth. by apply text_container_never_returns.
  - unfold compare_files, bind.
    destruct (text_container_never_returns (recursion_limit text_world)
                "notes.zip" [] no_globals eq_refl) as [g' ->].
    by eexists.
Qed.

(** ** The logical parent path *)

Section PathFacts.

Lemma append_empty (b : string) : "" +:+ b = b.
Proof. reflexivity. Qed.

Lemma append_String c (a b : string) : String c a +:+ b = String c (a +:+ b).
Proof. reflexivity. Qed.

Lemma append_assoc (a b c : string) : (a +:+ b) +:+ c = a +:+ b +:+ c.
Proof. induction a as [|x a IH]; rewrite ?append_empty, ?append_String; congruence. Qed.

Lemma string_length_app (a b : string) :
  String.length (a +:+ b) = (String.length a + String.length b)%nat.
Proof.
  induction a as [|c a IH]; rewrite ?append_empty, ?append_String; simpl; congruence.
Qed.

Lemma substring_whole (s : string) : String.substring 0 (String.length s) s = s.
Proof. induction s as [|c s IH]; simpl; congruence. Qed.

Lemma substring_app_l (a b : string) :
  String.substring 0 (String.length a) (a +:+ b) = a.
Proof.
  induction a as [|c a IH]; rewrite ?append_empty, ?append_String; simpl.
  - by destruct b.
  - by rewrite IH.
Qed.

Lemma substring_app_r (a b : string) :
  String.substring (String.length a) (String.length b) (a +:+ b) = b.
Proof.
  induction a as [|c a IH]; rewrite ?append_empty, ?append_String; simpl;
    [apply substring_whole|exact IH].
Qed.

Lemma find_from_shift sub s i :
  0 <= i -> (Py.find_from sub s i = -1 <-> Py.find_from sub s 0 = -1).
Proof.
  revert i. induction s as [|c s IH]; intros i Hi; cbn [Py.find_from].
  - destruct (String.prefix sub ""); lia.
  - destruct (String.prefix sub (String c s)); [lia|].
    rewrite (IH (i + 1)), (IH (0 + 1)) by lia. done.
Qed.

Lemma rfind_from_none sub s i :
  0 <= i -> Py.find_from sub s 0 = -1 -> Py.rfind_from sub s i = -1.
Proof.
  revert i. induction s as [|c s IH]; intros i Hi;
    cbn [Py.find_from Py.rfind_from].
  - destruct (String.prefix sub ""); [lia|done].
  - destruct (String.prefix sub (String c s)); [lia|].
    intros H. apply (find_from_shift sub s (0 + 1)) in H; [|lia].
    rewrite IH by (done || lia). done.
Qed.

(** The last slash of [d/s] is the one written out when [s] has none. *)
Lemma rfind_last_slash (d s : string) i :
  0 <= i -> Py.contains "/" s = false ->
  Py.rfind_from "/" (d +:+ "/" +:+ s) i = i + Py.len d.
Proof.
  intros Hi Hs. unfold Py.contains, Py.find in Hs.
  apply negb_false_iff, Z.eqb_eq in Hs.
  revert i Hi. induction d as [|c d IH]; intros i Hi.
  - rewrite append_empty, append_String, append_empty. cbn [Py.rfind_from].
    rewrite rfind_from_none by (done || lia).
    unfold Py.len. clear Hs. destruct s; simpl; lia.
  - rewrite append_String. cbn [Py.rfind_from]. rewrite IH by lia.
    unfold Py.len. cbn [String.length].
    destruct (_ =? -1) eqn:E; [apply Z.eqb_eq in E|]; lia.
Qed.

Lemma slice_from_app (d s : string) :
  Py.slice_from (d +:+ "/" +:+ s) (Py.len d + 1) = s.
Proof.
  unfold Py.slice_from, Py.bound, Py.len. cbv zeta.
  rewrite !string_length_app. cbn [String.length].
  destruct (_ <? 0) eqn:E; [apply Z.ltb_lt in E; lia|].
  replace (Z.to_nat _) with (String.length (d +:+ "/")).
  2:{ rewrite string_length_app. simpl. lia. }
  replace (_ - _)%nat with (String.length s).
  2:{ rewrite string_length_app. simpl. lia. }
  rewrite <- append_assoc. apply substring_app_r.
Qed.

Lemma slice_to_app (d s : string) :
  Py.slice_to (d +:+ "/" +:+ s) (Py.len d) = d.
Proof.
  unfold Py.slice_to, Py.bound, Py.len. cbv zeta.
  rewrite !string_length_app.
  destruct (_ <? 0) eqn:E; [apply Z.ltb_lt in E; lia|].
  replace (Z.to_nat _) with (String.length d) by lia.
  apply substring_app_l.
Qed.

End PathFacts.

(** ** The replacement loops end within their rounds *)

Lemma prefix_length (a s : string) :
  String.prefix a s = true -> (String.length a <= String.length s)%nat.
Proof.
  revert s. induction a as [|x a IH]; intros [|y s]; simpl; try (discriminate || lia).
  destruct (ascii_dec x y); [|discriminate]. intros H. apply IH in H. lia.
Qed.

Lemma replace_from_length (old new : string) (skip : nat) (s : string) :
  (String.length new <= String.length old)%nat ->
  (String.length (Py.replace_from old new skip s) + Nat.min skip (String.length s)
   <= String.length s)%nat.
Proof.
  intros Hlen. revert skip.
  induction s as [|c s IH]; intros skip; cbn [Py.replace_from String.length]; [lia|].
  destruct skip as [|k].
  - destruct (String.prefix old (String c s)) eqn:E.
    + apply prefix_length in E. cbn [String.length] in E.
      pose proof (IH (String.length old - 1)%nat) as H.
      rewrite string_length_app. lia.
    + pose proof (IH O). cbn [String.length]. lia.
  - pose proof (IH k). lia.
Qed.

Lemma replace_from_shrinks (old new s : string) i :
  (String.length new < String.length old)%nat ->
  Py.find_from old s i <> -1 -> 0 <= i ->
  (String.length (Py.replace_from old new 0 s) < String.length s)%nat.
Proof.
  intros Hlen. revert i.
  induction s as [|c s IH]; intros i; cbn [Py.find_from Py.replace_from].
  - destruct (String.prefix old "") eqn:E; [|done].
    apply prefix_length in E. simpl in E. lia.
  - destruct (String.prefix old (String c s)) eqn:E.
    + intros _ _. apply prefix_length in E. cbn [String.length] in E.
      pose proof (replace_from_length old new (String.length old - 1) s) as H.
      rewrite string_length_app. cbn [String.length]. lia.
    + intros Hf Hi. apply IH in Hf; [|lia]. cbn [String.length]. lia.
Qed.

(** Once the loop [while s.find(old) != -1: s = s.replace(old, new)] has
    run its rounds, [old] is gone: the rounds given to it in
    [remove_newlines] and [get_relative_path] are enough. *)
Lemma replace_while_enough_rounds (old new : string) (rounds : nat) (s : string) :
  (String.length new < String.length old)%nat ->
  (String.length s < rounds)%nat ->
  Py.find old (Py.replace_while rounds old new s) = -1.
Proof.
  intros Hlen. revert s.
  induction rounds as [|k IH]; intros s Hs; [lia|].
  cbn [Py.replace_while].
  destruct (Py.find old s =? -1) eqn:E; [by apply Z.eqb_eq in E|].
  apply Z.eqb_neq in E. apply IH.
  destruct old as [|x old]; [simpl in Hlen; lia|].
  cbn [Py.replace].
  pose proof (replace_from_shrinks (String x old) new s 0 Hlen E). lia.
Qed.

Section ParentPath.

Context (cfg : config).

(** A parent path with a slash: with [c = d/s], where [s] is the segment
    after the last slash of [c], [r] the resolved relative name of [p] and
    [f] its bare file name, the result is [d/r] when [s] occurs in [r] and
    [c/f] otherwise. *)
Lemma get_new_parent_dir_splices (p d s : string) :
  Py.contains "/" s = false ->
  let c := d +:+ "/" +:+ s in
  let r := get_relative_path cfg p in
  let f := get_filename p in
  get_new_parent_dir cfg p c
  = if Py.contains s r then d +:+ "/" +:+ r else c +:+ "/" +:+ f.
Proof.
  intros Hs c r f. unfold get_new_parent_dir. cbv zeta.
  unfold Py.rfind. subst c. rewrite rfind_last_slash by (done || lia).
  rewrite Z.add_0_l, slice_from_app, slice_to_app. reflexivity.
Qed.

(** When the parent path has no slash at all, [rfind] answers [-1]: the
    segment is the whole of [c], and the directory part is [c] without its
    last character. *)
Lemma get_new_parent_dir_without_slash (p c : string) :
  Py.contains "/" c = false ->
  get_new_parent_dir cfg p c
  = if Py.contains c (get_relative_path cfg p)
    then Py.slice_to c (-1) +:+ "/" +:+ get_relative_path cfg p
    else c +:+ "/" +:+ get_filename p.
Proof.
  intros Hc. unfold get_new_parent_dir. cbv zeta.
  unfold Py.contains, Py.find in Hc. apply negb_false_iff, Z.eqb_eq in Hc.
  unfold Py.rfind. rewrite rfind_from_none by (done || lia).
  replace (Py.slice_from c (-1 + 1)) with c; [reflexivity|].
  unfold Py.slice_from, Py.bound, Py.len. cbv zeta.
  replace (Z.to_nat _) with O by (simpl; lia).
  rewrite Nat.sub_0_r. symmetry. apply substring_whole.
Qed.

End ParentPath.

Example get_new_parent_dir_inside_image :
  Py.contains "/" "system.img" = false
  /\ get_new_parent_dir demo_config
       "/tmp/comparison/imgs/system.img/old.zip/system/app/Mail/Mail.apk" "IMAGES/system.img"
     = "IMAGES/system.img/system/app/Mail/Mail.apk".
Proof.
  split; [reflexivity|].
  exact (get_new_parent_dir_splices demo_config
           "/tmp/comparison/imgs/system.img/old.zip/system/app/Mail/Mail.apk"
           "IMAGES" "system.img" eq_refl).
Qed.

(** C7, where the code departs from it: a container at the root of the
    target files has a parent path without a slash, here [payload.zip].  Its
    final segment is the whole path and its directory part is empty, so a
    nested [inner.zip] belongs under [payload.zip/inner.zip]; the code cuts
    at index [-1] instead and answers with a directory part that is the
    parent path without its last character. *)
Theorem get_new_parent_dir_at_root :
  get_relative_path demo_config "/tmp/comparison/zip/payload.zip/old.zip/inner.zip"
  = "payload.zip/inner.zip"
  /\ Py.rfind "/" "payload.zip" = -1
  /\ get_new_parent_dir demo_config
       "/tmp/comparison/zip/payload.zip/old.zip/inner.zip" "payload.zip"
     = "payload.zi/payload.zip/inner.zip".
Proof. repeat split; reflexivity. Qed.

(** ** The duplicate filter *)

Section FilterDuplicates.

Context (fs : gmap string file).

Lemma inside_unique_list_true unique_files path :
  inside_unique_list fs unique_files path = true <->
  exists u, u ∈ unique_files /\ files_are_equal fs u path = true.
Proof.
  induction unique_files as [|u us IH]; simpl.
  - split; [discriminate|]. intros (? & H & _). by apply not_elem_of_nil in H.
  - destruct (files_are_equal fs u path) eqn:E.
    + split; [|done]. intros _. exists u. split; [left|done].
    + rewrite IH. split.
      * intros (x & Hx & Heq). exists x. split; [by right|done].
      * intros (x & Hx & Heq). apply elem_of_cons in Hx as [->|Hx]; [congruence|eauto].
Qed.

Lemma filter_loop_snoc pre t :
  filter_loop fs (pre ++ [t]) = filter_step fs (filter_loop fs pre) t.
Proof. unfold filter_loop. by rewrite fold_left_app. Qed.

(** The two lists of seen files are the two sides of the kept tuples. *)
Lemma filter_loop_sides l :
  unique_files1 (filter_loop fs l) = map tuple_file1 (filter_duplicates fs l)
  /\ unique_files2 (filter_loop fs l) = map tuple_file2 (filter_duplicates fs l).
Proof.
  unfold filter_duplicates.
  induction l as [|t pre IH] using rev_ind; [done|].
  rewrite filter_loop_snoc. unfold filter_step.
  destruct (negb _ && negb _); [|done].
  destruct IH as [IH1 IH2]. cbn [unique_files1 unique_files2 unique_files_final].
  by rewrite !map_app, IH1, IH2.
Qed.

Lemma filter_duplicates_snoc pre t :
  filter_duplicates fs (pre ++ [t])
  = if inside_unique_list fs (map tuple_file1 (filter_duplicates fs pre)) (tuple_file1 t)
       || inside_unique_list fs (map tuple_file2 (filter_duplicates fs pre)) (tuple_file2 t)
    then filter_duplicates fs pre
    else filter_duplicates fs pre ++ [t].
Proof.
  destruct (filter_loop_sides pre) as [H1 H2].
  unfold filter_duplicates at 1. rewrite filter_loop_snoc. unfold filter_step.
  rewrite H1, H2, <- negb_orb.
  by destruct (_ || _).
Qed.

Lemma side_match_inside kept t :
  inside_unique_list fs (map tuple_file1 kept) (tuple_file1 t)
  || inside_unique_list fs (map tuple_file2 kept) (tuple_file2 t) = true
  <-> side_match fs kept t.
Proof.
  rewrite orb_true_iff, !inside_unique_list_true. unfold side_match. split.
  - intros [(u & Hu & Heq)|(u & Hu & Heq)];
      apply list_elem_of_fmap in Hu as (k & -> & Hk); eauto.
  - intros (k & Hk & [Heq|Heq]); [left|right];
      (eexists; split; [apply list_elem_of_fmap; eauto|done]).
Qed.

Lemma filter_duplicates_app pre post :
  exists rest, filter_duplicates fs (pre ++ post) = filter_duplicates fs pre ++ rest.
Proof.
  induction post as [|t post IH] using rev_ind.
  - exists []. by rewrite !app_nil_r.
  - destruct IH as [rest IH]. rewrite app_assoc, filter_duplicates_snoc, IH.
    destruct (_ || _); [by exists rest|].
    exists (rest ++ [t]). by rewrite app_assoc.
Qed.

(** C1, as the code has it: a tuple is dropped exactly when one of its
    files is byte-identical to the file on the same side of a tuple kept
    before it (a match on one side is enough, and the two sides may match
    different kept tuples); a tuple that is not dropped is appended to the
    kept tuples, so the first tuple is always kept; and what has been kept
    stays kept, in order, whatever follows. *)
Theorem filter_duplicates_drops_on_side_match (pre : list file_tuple) (t : file_tuple) :
  (dropped fs pre t <-> side_match fs (filter_duplicates fs pre) t)
  /\ (~ dropped fs pre t <->
      filter_duplicates fs (pre ++ [t]) = filter_duplicates fs pre ++ [t])
  /\ filter_duplicates fs [t] = [t]
  /\ (forall post, exists rest,
         filter_duplicates fs (pre ++ post) = filter_duplicates fs pre ++ rest).
Proof.
  assert (forall (l : list file_tuple) x, l ++ [x] <> l) as Hneq.
  { intros l x H. apply (f_equal length) in H. rewrite length_app in H. simpl in H. lia. }
  split; [|split; [|split]].
  - unfold dropped. rewrite <- side_match_inside, filter_duplicates_snoc.
    destruct (_ || _); [done|]. split; [intros H; by apply Hneq in H|done].
  - unfold dropped. rewrite filter_duplicates_snoc.
    destruct (_ || _); [|split; [done|intros _ H; by apply Hneq in H]].
    split; [done|]. intros H. symmetry in H. by apply Hneq in H.
  - reflexivity.
  - apply filter_duplicates_app.
Qed.

(** C8: filtering the output of [filter_duplicates] again changes
    nothing. *)
Theorem filter_duplicates_idempotent (l : list file_tuple) :
  filter_duplicates fs (filter_duplicates fs l) = filter_duplicates fs l.
Proof.
  induction l as [|t pre IH] using rev_ind; [done|].
  rewrite (filter_duplicates_snoc pre t).
  destruct (_ || _) eqn:E; [done|].
  by rewrite filter_duplicates_snoc, IH, E.
Qed.

End FilterDuplicates.

(** C1 fails as worded: the second tuple is dropped, and with it the only
    report of the blue logo, although its side-2 file matches no earlier
    file; the match of the two old files is enough for the code. *)
Lemma side_match_drops_a_new_pair : ~ drops_on_pair_match_only two_assets two_asset_tuples.
Proof.
  intros H.
  destruct (H [("a/logo.png", "/old/a/logo.png", "/new/a/logo.png")]
              ("b/logo.png", "/old/b/logo.png", "/new/b/logo.png") [] eq_refl) as [H1 _].
  destruct H1 as (k & Hk & _ & H2); [reflexivity|].
  apply list_elem_of_singleton in Hk as ->.
  vm_compute in H2. discriminate.
Qed.

(** ** Sorting map files *)

Section StringOrder.

Lemma string_leb_trans (a b c : string) :
  String.leb a b = true -> String.leb b c = true -> String.leb a c = true.
Proof.
  unfold String.leb. revert b c.
  induction a as [|x a IH]; intros [|y b] [|z c]; simpl; try done.
  unfold Ascii.compare.
  destruct (N.compare_spec (N_of_ascii x) (N_of_ascii y)) as [Hxy|Hxy|Hxy];
    destruct (N.compare_spec (N_of_ascii y) (N_of_ascii z)) as [Hyz|Hyz|Hyz];
    try done;
    destruct (N.compare_spec (N_of_ascii x) (N_of_ascii z)) as [Hxz|Hxz|Hxz];
    try done; try lia.
  apply IH.
Qed.

#[global] Instance str_le_trans : Transitive str_le.
Proof. intros a b c. apply string_leb_trans. Qed.

#[global] Instance str_le_total : Total str_le.
Proof. intros a b. apply String.leb_total. Qed.

#[global] Instance str_le_antisymm : AntiSymm (=) str_le.
Proof. intros a b. apply String.leb_antisym. Qed.


End StringOrder.


(** ** Commands that exit abnormally *)

Section ShellDiscipline.

Context (cfg : config) (w : world).

Lemma all_normal_app history cmds1 cmds2 :
  all_normal w history (cmds1 ++ cmds2)
  <-> all_normal w history cmds1 /\ all_normal w (history ++ cmds1) cmds2.
Proof.
  revert history. induction cmds1 as [|c cs IH]; intros history; simpl.
  - rewrite app_nil_r. tauto.
  - rewrite IH, <- app_assoc. simpl. tauto.
Qed.

Lemma not_normal_and_abnormal history cmds :
  all_normal w history cmds -> stops_at_abnormal w history cmds -> False.
Proof.
  intros Hn (before & cmd & -> & _ & Hab).
  apply all_normal_app in Hn as [_ [Hn _]]. congruence.
Qed.

(** A computation that runs no command and raises nothing of its own. *)
Lemma quiet_discipline {A} (m : M A) :
  (forall g, exists r, m g = (r, g) /\
               match r with Raise (UncomparableFilesException _) => False | _ => True end) ->
  shell_discipline w m.
Proof.
  intros H g r g' E. destruct (H g) as (r0 & E0 & Hr). rewrite E0 in E.
  injection E as <- <-. split; [done|]. exists []. rewrite app_nil_r. split; [done|].
  by destruct r0 as [|[]].
Qed.

(** A computation that only writes to the output streams or to
    [apk_files]. *)
Lemma silent_discipline {A} (m : M A) :
  (forall g, exists a g', m g = (Ok a, g')
               /\ all_commands g' = all_commands g
               /\ uncomparable_files g' = uncomparable_files g) ->
  shell_discipline w m.
Proof.
  intros H g r g' E. destruct (H g) as (a & g0 & E0 & Hc & Hu). rewrite E0 in E.
  injection E as <- <-. split; [done|]. exists []. rewrite app_nil_r. done.
Qed.

Lemma ret_discipline {A} (a : A) : shell_discipline w (ret a).
Proof. apply quiet_discipline. intros g. by exists (Ok a). Qed.

Lemma sys_exit_discipline {A} code : shell_discipline w (@sys_exit A code).
Proof. apply quiet_discipline. intros g. by exists (Raise (SystemExit code)). Qed.

Lemma raise_recursion_discipline {A} : shell_discipline w (@raise A RecursionError).
Proof. apply quiet_discipline. intros g. by exists (Raise RecursionError). Qed.

Lemma item_discipline {A} (l : list A) i : shell_discipline w (item l i).
Proof.
  apply quiet_discipline. intros g. unfold item.
  destruct (l !! i) as [a|]; [by exists (Ok a)|by exists (Raise IndexError)].
Qed.

Lemma print_discipline line : shell_discipline w (print line).
Proof. apply silent_discipline. intros g. by exists tt, (add_stdout line g). Qed.

Lemma print_error_discipline cause : shell_discipline w (print_error cfg cause).
Proof. apply silent_discipline. intros g. by eexists tt, _. Qed.

Lemma apk_files_append_discipline entry : shell_discipline w (apk_files_append entry).
Proof. apply silent_discipline. intros g. by exists tt, (add_apk_file entry g). Qed.

Lemma dir_exists_discipline path : shell_discipline w (dir_exists w path).
Proof. apply quiet_discipline. intros g. by eexists (Ok _). Qed.

Lemma file_exists_discipline path : shell_discipline w (file_exists w path).
Proof. apply quiet_discipline. intros g. by eexists (Ok _). Qed.

Lemma read_uncomparable_files_discipline : shell_discipline w read_uncomparable_files.
Proof. apply quiet_discipline. intros g. by eexists (Ok _). Qed.

Lemma run_shell_command_discipline cmd : shell_discipline w (run_shell_command cfg w cmd).
Proof.
  intros g r g'. rewrite run_shell_command_unfold. cbv zeta.
  destruct (shell_successfull _ _) eqn:E; intros [= <- <-];
    (split; [apply after_command_uncomparable_files|]);
    exists [cmd]; (split; [apply after_command_all_commands|]).
  - simpl. done.
  - exists [], cmd. rewrite app_nil_r. done.
Qed.

Lemma bind_discipline {A B} (m : M A) (k : A -> M B) :
  shell_discipline w m -> (forall a, shell_discipline w (k a)) -> shell_discipline w (bind m k).
Proof.
  intros Hm Hk g r g'. unfold bind.
  destruct (m g) as [[a|e] g1] eqn:E1.
  - intros E2. apply Hm in E1 as (Hu1 & cmds1 & Hc1 & Hn1).
    apply Hk in E2 as (Hu2 & cmds2 & Hc2 & Hr2).
    split; [congruence|]. exists (cmds1 ++ cmds2).
    split; [rewrite Hc2, Hc1; by rewrite app_assoc|].
    rewrite Hc1 in Hr2.
    assert (all_normal w (all_commands g ++ cmds1) cmds2 ->
            all_normal w (all_commands g) (cmds1 ++ cmds2)) as Hn
        by (intros; by apply all_normal_app).
    destruct r as [|[]]; auto.
    destruct Hr2 as (before & cmd & -> & Hb & Hab).
    exists (cmds1 ++ before), cmd. rewrite !app_assoc. split; [done|].
    split; [by apply all_normal_app|done].
  - intros [= <- <-]. by apply Hm in E1.
Qed.

Lemma for_each_discipline {A B} (l : list A) (acc : B) (body : B -> A -> M B) :
  (forall acc x, shell_discipline w (body acc x)) ->
  shell_discipline w (for_each l acc body).
Proof.
  intros Hbody. revert acc. induction l as [|x l IH]; intros acc; simpl.
  - apply ret_discipline.
  - apply bind_discipline; auto.
Qed.

Create HintDb discipline.

#[local] Hint Resolve ret_discipline sys_exit_discipline raise_recursion_discipline
  item_discipline print_discipline print_error_discipline apk_files_append_discipline
  dir_exists_discipline file_exists_discipline read_uncomparable_files_discipline
  run_shell_command_discipline : discipline.

(** One step through a computation written with [bind]: a piece that is
    already known, a branch, or the next [bind]. *)
Ltac discipline_step :=
  first
    [ solve [auto 1 with discipline]
    | match goal with
      | |- shell_discipline _ (if ?b then _ else _) => destruct b
      end
    | apply bind_discipline; [|intros ?] ].

Ltac discipline := cbv zeta; repeat discipline_step.

Lemma diff_discipline path1 path2 : shell_discipline w (diff cfg w path1 path2).
Proof. unfold diff. discipline. Qed.

Lemma unzip_discipline src dst : shell_discipline w (unzip cfg w src dst).
Proof. unfold unzip. discipline. Qed.

Lemma is_text_file_discipline path : shell_discipline w (is_text_file cfg w path).
Proof. unfold is_text_file, get_file_type. discipline. Qed.

Lemma extract_7z_files_discipline file1 file2 target1 target2 use_sim2img :
  shell_discipline w (extract_7z_files cfg w file1 file2 target1 target2 use_sim2img).
Proof. unfold extract_7z_files. discipline. Qed.

Lemma unpack_notice_files_discipline n1 n2 :
  shell_discipline w (unpack_notice_files cfg w n1 n2).
Proof. unfold unpack_notice_files. discipline. Qed.

#[local] Hint Resolve diff_discipline unzip_discipline is_text_file_discipline
  extract_7z_files_discipline unpack_notice_files_discipline : discipline.

Lemma compare_image_files_discipline img1 img2 :
  shell_discipline w (compare_image_files cfg w img1 img2).
Proof. unfold compare_image_files. discipline. Qed.

Lemma compare_apex_files_discipline apex1 apex2 :
  shell_discipline w (compare_apex_files cfg w apex1 apex2).
Proof. unfold compare_apex_files. discipline. Qed.

Lemma compare_capex_files_discipline capex1 capex2 :
  shell_discipline w (compare_capex_files cfg w capex1 capex2).
Proof. unfold compare_capex_files. discipline. Qed.

Lemma compare_apk_files_discipline apk1 apk2 :
  shell_discipline w (compare_apk_files cfg w apk1 apk2).
Proof. unfold compare_apk_files. discipline. Qed.

Lemma compare_zip_files_discipline zip1 zip2 :
  shell_discipline w (compare_zip_files cfg w zip1 zip2).
Proof. unfold compare_zip_files. discipline. Qed.

Lemma compare_gz_files_discipline gz1 gz2 :
  shell_discipline w (compare_gz_files cfg w gz1 gz2).
Proof. unfold compare_gz_files. discipline. Qed.

Lemma compare_lz4_files_discipline lz41 lz42 :
  shell_discipline w (compare_lz4_files cfg w lz41 lz42).
Proof. unfold compare_lz4_files. discipline. Qed.

Lemma compare_ext4_files_discipline ext41 ext42 :
  shell_discipline w (compare_ext4_files cfg w ext41 ext42).
Proof. unfold compare_ext4_files. discipline. Qed.

#[local] Hint Resolve compare_image_files_discipline compare_apex_files_discipline
  compare_capex_files_discipline compare_apk_files_discipline
  compare_zip_files_discipline compare_gz_files_discipline
  compare_lz4_files_discipline compare_ext4_files_discipline : discipline.

Lemma after_extraction_discipline recurse parent_dir all_diffs diffs :
  (forall file1 file2 parent_dir all_diffs,
      shell_discipline w (recurse file1 file2 parent_dir all_diffs)) ->
  shell_discipline w (after_extraction cfg w recurse parent_dir all_diffs diffs).
Proof.
  intros Hrec. unfold after_extraction. discipline.
  apply for_each_discipline. intros. discipline.
Qed.

Lemma compare_files_recursive_discipline depth :
  forall file1 file2 parent_dir all_diffs,
    shell_discipline w (compare_files_recursive cfg w depth file1 file2 parent_dir all_diffs).
Proof.
  induction depth as [|depth IH]; intros; cbn [compare_files_recursive].
  - discipline.
  - pose proof (fun p a d => after_extraction_discipline _ p a d IH).
    discipline.
Qed.

Lemma compare_files_discipline file1 file2 parent_dir :
  shell_discipline w (compare_files cfg w file1 file2 parent_dir).
Proof.
  pose proof (compare_files_recursive_discipline (recursion_limit w)).
  unfold compare_files. discipline.
Qed.

End ShellDiscipline.

Section TopLevelLoop.

Context (cfg : config) (w : world).

Lemma compare_target_pair_outcome all_diffs file_pair g r g' :
  compare_target_pair cfg w all_diffs file_pair g = (r, g') ->
  exists cmds,
    all_commands g' = all_commands g ++ cmds
    /\ ((all_normal w (all_commands g) cmds
         /\ uncomparable_files g' = uncomparable_files g)
        \/ (stops_at_abnormal w (all_commands g) cmds
            /\ r = Raise (SystemExit 1)
            /\ recorded_uncomparable cfg w file_pair g g')).
Proof.
  unfold compare_target_pair, item.
  destruct (Py.split " " file_pair !! 0%nat) as [file1|] eqn:E0.
  2:{ intros [= <- <-]. exists []. rewrite app_nil_r. split; [done|]. by left. }
  destruct (Py.split " " file_pair !! 1%nat) as [file2|] eqn:E1.
  2:{ intros [= <- <-]. exists []. rewrite app_nil_r. split; [done|]. by left. }
  unfold bind at 1 2, ret at 1 2. unfold try_except.
  pose proof (compare_files_discipline cfg w file1 file2 (get_relative_path cfg file1)) as Hd.
  unfold bind at 1.
  destruct (compare_files cfg w file1 file2 _ g) as [[diffs|e] g1] eqn:Ecmp;
    apply Hd in Ecmp as Hfacts; destruct Hfacts as (Hu & cmds & Hc & Hr).
  - intros [= <- <-]. exists cmds. split; [done|]. by left.
  - destruct e as [message| | |].
    + intros [= <- <-]. exists cmds. split; [done|]. right. split; [done|]. split; [done|].
      exists file1, file2, message, g1. repeat split; try done.
      cbn [uncomparable_files add_stdout add_uncomparable]. by rewrite Hu.
    + intros [= <- <-]. exists cmds. split; [done|]. by left.
    + intros [= <- <-]. exists cmds. split; [done|]. by left.
    + intros [= <- <-]. exists cmds. split; [done|]. by left.
Qed.

Lemma make_clean_discipline target1 target2 :
  shell_discipline w (make_clean cfg w target1 target2).
Proof.
  unfold make_clean. apply bind_discipline; [apply run_shell_command_discipline|].
  intros _. apply ret_discipline.
Qed.

Lemma unzip_target_files_discipline zip1_path zip2_path zip1_dst zip2_dst :
  shell_discipline w (unzip_target_files cfg w zip1_path zip2_path zip1_dst zip2_dst).
Proof.
  unfold unzip_target_files.
  apply bind_discipline; [apply dir_exists_discipline|]. intros d1.
  apply bind_discipline.
  { destruct (negb d1); [|apply print_discipline].
    apply bind_discipline; [apply print_discipline|]. intros _. apply unzip_discipline. }
  intros _. apply bind_discipline; [apply dir_exists_discipline|]. intros d2.
  destruct (negb d2); [|apply print_discipline].
  apply bind_discipline; [apply print_discipline|]. intros _. apply unzip_discipline.
Qed.

(** What runs before the loop leaves the list alone, so the loop decides. *)
Lemma bind_before_the_loop {A B} (m : M A) (k : A -> M B) :
  shell_discipline w m ->
  (forall a g r g',
      k a g = (r, g') ->
      uncomparable_files g' = uncomparable_files g
      \/ (r = Raise (SystemExit 1)
          /\ exists pair, uncomparable_files g' = uncomparable_files g ++ [pair])) ->
  forall g r g',
    bind m k g = (r, g') ->
    uncomparable_files g' = uncomparable_files g
    \/ (r = Raise (SystemExit 1)
        /\ exists pair, uncomparable_files g' = uncomparable_files g ++ [pair]).
Proof.
  intros Hm Hk g r g'. unfold bind.
  destruct (m g) as [[a|e] g1] eqn:E1; apply Hm in E1 as [Hu _].
  - intros E2. apply Hk in E2. by rewrite Hu in E2.
  - intros [= <- <-]. by left.
Qed.

Lemma comparison_loop_records_on_exit initial_diff all_diffs g r g' :
  comparison_loop cfg w initial_diff all_diffs g = (r, g') ->
  uncomparable_files g' = uncomparable_files g
  \/ (r = Raise (SystemExit 1)
      /\ exists pair, uncomparable_files g' = uncomparable_files g ++ [pair]).
Proof.
  unfold comparison_loop. revert all_diffs g.
  induction initial_diff as [|file_pair rest IH]; intros all_diffs g; cbn [for_each].
  - intros [= <- <-]. by left.
  - unfold bind at 1.
    destruct (compare_target_pair cfg w all_diffs file_pair g) as [[acc|e] g1] eqn:Epair;
      apply compare_target_pair_outcome in Epair as (cmds & _ & Hcase).
    + destruct Hcase as [[_ Hu]|(_ & [=] & _)].
      intros Hrest. apply IH in Hrest. by rewrite Hu in Hrest.
    + intros [= <- <-].
      destruct Hcase as [[_ Hu]|(_ & -> & file1 & file2 & message & g0 & _ & _ & _ & _ & Hu)];
        [by left|right]. split; [done|]. by exists (file1 +:+ " " +:+ file2).
Qed.

Lemma compare_target_files_records_on_exit zip1 zip2 force_clean g r g' :
  compare_target_files cfg w zip1 zip2 force_clean g = (r, g') ->
  uncomparable_files g' = uncomparable_files g
  \/ (r = Raise (SystemExit 1)
      /\ exists pair, uncomparable_files g' = uncomparable_files g ++ [pair]).
Proof.
  revert g r g'. unfold compare_target_files. cbv zeta.
  apply bind_before_the_loop.
  { destruct force_clean; [apply make_clean_discipline|apply ret_discipline]. }
  intros _. apply bind_before_the_loop; [apply dir_exists_discipline|]. intros present.
  apply bind_before_the_loop.
  { destruct (negb present); [|apply ret_discipline].
    apply bind_discipline; [apply run_shell_command_discipline|].
    intros _. apply ret_discipline. }
  intros _. apply bind_before_the_loop; [apply unzip_target_files_discipline|].
  intros _. apply bind_before_the_loop; [apply diff_discipline|].
  intros initial_diff. apply comparison_loop_records_on_exit.
Qed.

(** C3: a command that exits abnormally makes [run_shell_command] raise
    [UncomparableFilesException] instead of returning.  In the loop of
    [compare_target_files], either every command exited normally and
    [uncomparable_files] is what it was, or the last command run is the
    first one that exited abnormally: then the entries before the current
    one were compared to the end, the current entry of the initial diff was
    appended to [uncomparable_files], whatever pair inside it the command
    was run for, and the run stopped with exit status 1.  Nothing else
    changes [uncomparable_files]: a run of [compare_target_files] that ends
    in another way than with exit status 1, as it does when a command fails
    before the loop, leaves the list as it was. *)
Theorem abnormal_exit_is_recorded (initial_diff : list string) (all_diffs : dict)
    (g : globals) (r : result dict) (g' : globals) :
  comparison_loop cfg w initial_diff all_diffs g = (r, g') ->
  (forall cmd g0,
      shell_successfull cmd (snd (popen w (all_commands g0) cmd)) = false ->
      exists message,
        run_shell_command cfg w cmd g0
        = (Raise (UncomparableFilesException message), after_command cfg cmd g0))
  /\ loop_outcome cfg w initial_diff all_diffs g r g'
  /\ (forall zip1 zip2 force_clean g0 r1 g1,
         compare_target_files cfg w zip1 zip2 force_clean g0 = (r1, g1) ->
         r1 <> Raise (SystemExit 1) ->
         uncomparable_files g1 = uncomparable_files g0).
Proof.
  intros Hloop. split.
  { intros cmd g0 Hab. rewrite run_shell_command_unfold. cbv zeta. rewrite Hab. eauto. }
  split.
  2:{ intros zip1 zip2 force_clean g0 r1 g1 Hrun Hr1.
      by destruct (compare_target_files_records_on_exit _ _ _ _ _ _ Hrun) as [?|[? _]]. }
  unfold loop_outcome, comparison_loop in *.
  revert all_diffs g Hloop.
  induction initial_diff as [|file_pair rest IH]; intros all_diffs g; cbn [for_each].
  - intros [= <- <-]. exists []. rewrite app_nil_r. split; [done|]. by left.
  - unfold bind at 1.
    destruct (compare_target_pair cfg w all_diffs file_pair g) as [[acc|e] g1] eqn:Epair;
      apply compare_target_pair_outcome in Epair as Hpair;
      destruct Hpair as (cmds1 & Hc1 & Hcase1).
    + destruct Hcase1 as [[Hn1 Hu1]|(_ & [=] & _)].
      intros Hrest. apply IH in Hrest as (cmds2 & Hc2 & Hcase2).
      exists (cmds1 ++ cmds2). split; [by rewrite Hc2, Hc1, app_assoc|].
      rewrite Hc1 in Hcase2.
      destruct Hcase2 as [[Hn2 Hu2]|(Hs2 & -> & Hrec)].
      * left. split; [by apply all_normal_app|congruence].
      * right. split; [|split; [done|]].
        -- destruct Hs2 as (before & cmd & -> & Hb & Hab).
           exists (cmds1 ++ before), cmd. rewrite !app_assoc.
           split; [done|]. split; [by apply all_normal_app|done].
        -- destruct Hrec as (before & fp & after & acc' & g0 & -> & Hbefore & Hu0 & Hrec).
           exists (file_pair :: before), fp, after, acc', g0.
           split; [done|]. split; [|split; [congruence|done]].
           cbn [for_each]. unfold bind at 1. by rewrite Epair.
    + intros [= <- <-]. exists cmds1. split; [done|].
      destruct Hcase1 as [?|(Hs & -> & Hrec)]; [by left|].
      right. split; [done|]. split; [done|].
      exists [], file_pair, rest, all_diffs, g. done.
Qed.

End TopLevelLoop.

(** The commands that [compare_target_files] runs before its loop are
    outside the [try]: when the unzip of a target file fails, the exception
    leaves [compare_target_files] and nothing is recorded. *)
Example target_unzip_failure_is_not_recorded :
  exists message g',
    compare_target_files demo_config data_world "builds/old.zip" "builds/new.zip" false
      no_globals
    = (Raise (UncomparableFilesException message), g')
    /\ uncomparable_files g' = [].
Proof. eexists _, _. split; [vm_compute; reflexivity|reflexivity]. Qed.

(** C3 fails as worded, in two ways.  When the unzip of a target file
    fails, the run stops and nothing at all is recorded.  When the unzip of
    [inner.zip], found inside [outer.zip], fails, the run stops and the pair
    recorded is the pair of [outer.zip], the entry of the initial diff the
    loop was at; the pair of [inner.zip] is recorded nowhere. *)
Lemma failing_pair_is_not_recorded :
  ~ records_the_failing_pair demo_config data_world "builds/old.zip" "builds/new.zip"
      false no_globals
  /\ ~ records_the_failing_pair demo_config nested_world "builds/old.zip" "builds/new.zip"
        false no_globals
  /\ uncomparable_files
       (snd (compare_target_files demo_config nested_world "builds/old.zip"
               "builds/new.zip" false no_globals))
     = [outer1 +:+ " " +:+ outer2].
Proof.
  split; [|split].
  - intros H.
    destruct (H _ _ ["mkdir -p /tmp/target-files"] "builds/old.zip"
                "/tmp/target-files/old.zip" (surjective_pairing _))
      as (pair & Hin & _); [vm_compute; reflexivity|reflexivity|].
    vm_compute in Hin. by apply elem_of_nil in Hin.
  - intros H.
    destruct (H _ _
                (removelast
                   (all_commands
                      (snd (compare_target_files demo_config nested_world "builds/old.zip"
                              "builds/new.zip" false no_globals))))
                inner1 "/tmp/comparison/zip/outer.zip/inner.zip/old.zip" (surjective_pairing _))
      as (pair & Hin & Hsrc); [vm_compute; reflexivity|reflexivity|].
    vm_compute in Hin. apply list_elem_of_singleton in Hin as ->.
    change (inner1 ∈ [outer1; outer2]) in Hsrc.
    apply elem_of_cons in Hsrc as [Hsrc|Hsrc]; [discriminate|].
    apply list_elem_of_singleton in Hsrc. discriminate.
  - reflexivity.
Qed.

(** ** The theorems at concrete inputs *)

Lemma differing_extensions_are_fatal_witness :
  extension boot1 <> extension modem2
  /\ compare_files_recursive demo_config data_world 1 boot1 modem2 "IMAGES/boot.img" []
       no_globals
     = (Raise (SystemExit 1),
        add_stderr "catf.py: error: cannot compare '.img' and '.bin' files. Not the same extension!"
          no_globals).
Proof.
  assert (extension boot1 <> extension modem2) as H by (vm_compute; discriminate).
  split; [exact H|].
  exact (proj1 (differing_extensions_are_fatal demo_config data_world boot1 modem2 H)
           O "IMAGES/boot.img" [] no_globals).
Defined.

Lemma unsupported_pair_is_leaf_witness :
  let g1 := after_command demo_config (file_type_command modem1)
              (add_stdout "comparing RADIO/modem.bin ..." no_globals) in
  compare_files_recursive demo_config data_world 1 modem1 modem2 "RADIO/modem.bin" []
    no_globals
  = (Ok (Some "RADIO/modem.bin", [modem1 +:+ " " +:+ modem2],
         [("RADIO/modem.bin", [modem1 +:+ " " +:+ modem2])]),
     add_stdout ("unsupported file! " +:+ modem1) g1)
  /\ all_commands g1 = [file_type_command modem1].
Proof.
  intros g1.
  destruct (unsupported_pair_is_leaf demo_config data_world O modem1 modem2
              "RADIO/modem.bin" [] no_globals g1) as (H1 & _ & H2 & _).
  - reflexivity.
  - reflexivity.
  - vm_compute. reflexivity.
  - split; [exact H1|exact H2].
Defined.

Lemma userdata_image_is_skipped_witness :
  get_filename userdata1 = "userdata.img"
  /\ compare_files_recursive demo_config data_world 1 userdata1 userdata2
       "IMAGES/userdata.img" [] no_globals
     = (Ok (Some "IMAGES/userdata.img", [], []),
        add_stdout "comparing IMAGES/userdata.img ..." no_globals).
Proof.
  split; [reflexivity|].
  exact (proj2 (userdata_image_is_skipped demo_config data_world O userdata1 userdata2
                  "IMAGES/userdata.img" [] no_globals eq_refl eq_refl eq_refl)).
Defined.

Lemma abnormal_exit_is_recorded_witness :
  loop_outcome demo_config data_world [mail1 +:+ " " +:+ mail2] [] no_globals
    (Raise (SystemExit 1)) failed_unzip_globals
  /\ uncomparable_files failed_unzip_globals = [mail1 +:+ " " +:+ mail2].
Proof.
  split; [|reflexivity].
  apply (abnormal_exit_is_recorded demo_config data_world [mail1 +:+ " " +:+ mail2] []
           no_globals (Raise (SystemExit 1)) failed_unzip_globals).
  vm_compute. reflexivity.
Defined.

(** The failing input of C10: a [diff] that could not read one of its
    operands exits with 2, which is abnormal, and [run_shell_command]
    returns as if nothing had happened. *)
Lemma diff_exit_status_is_never_abnormal_witness :
  abnormal_exit "diff -wB /old/a.txt /new/a.txt" 2
  /\ run_shell_command demo_config trouble_world "diff -wB /old/a.txt /new/a.txt" no_globals
     = (Ok ([], Some 512),
        after_command demo_config "diff -wB /old/a.txt /new/a.txt" no_globals).
Proof.
  split; [reflexivity|].
  apply (diff_exit_status_is_never_abnormal demo_config trouble_world
           "diff -wB /old/a.txt /new/a.txt" no_globals 2); reflexivity.
Defined.

(** * Further properties *)

(** ** Cutting a path at its last separator *)

Lemma substring_split (n : nat) (s : string) :
  (n <= String.length s)%nat ->
  String.substring 0 n s +:+ String.substring n (String.length s - n) s = s.
Proof.
  revert n. induction s as [|c s IH]; intros [|n] Hn; simpl in *; try lia; try done.
  - by rewrite append_empty, substring_whole.
  - rewrite append_String, IH by lia. done.
Qed.

Lemma bound_le (s : string) (i : Z) : (Py.bound s i <= String.length s)%nat.
Proof. unfold Py.bound, Py.len. cbv zeta. destruct (Z.ltb_spec i 0); lia. Qed.

Lemma slice_to_from (p : string) (i : Z) : Py.slice_to p i +:+ Py.slice_from p i = p.
Proof.
  unfold Py.slice_to, Py.slice_from. cbv zeta.
  apply substring_split, bound_le.
Qed.

Lemma prefix_char (c x : ascii) (s : string) :
  String.prefix (String c "") (String x s) = if Ascii.eqb c x then true else false.
Proof.
  simpl. destruct (ascii_dec c x) as [->|Hne].
  - rewrite Ascii.eqb_refl. by destruct s.
  - apply Ascii.eqb_neq in Hne. by rewrite Hne.
Qed.

(** The last occurrence of a character is the one written out when none
    follows it. *)
Lemma rfind_char_last (c : ascii) (d s : string) i :
  0 <= i -> Py.contains (String c "") s = false ->
  Py.rfind_from (String c "") (d +:+ String c s) i = i + Py.len d.
Proof.
  intros Hi Hs. unfold Py.contains, Py.find in Hs.
  apply negb_false_iff, Z.eqb_eq in Hs.
  revert i Hi. induction d as [|x d IH]; intros i Hi.
  - rewrite append_empty. cbn [Py.rfind_from].
    rewrite rfind_from_none by (done || lia).
    rewrite prefix_char, Ascii.eqb_refl. unfold Py.len. simpl. lia.
  - rewrite append_String. cbn [Py.rfind_from]. rewrite IH by lia.
    unfold Py.len. cbn [String.length].
    destruct (_ =? -1) eqn:E; [apply Z.eqb_eq in E|]; lia.
Qed.

Lemma contains_char_cons (c x : ascii) (s : string) :
  Py.contains (String c "") (String x s)
  = Ascii.eqb c x || Py.contains (String c "") s.
Proof.
  unfold Py.contains, Py.find. cbn [Py.find_from]. rewrite prefix_char.
  destruct (Ascii.eqb c x); [done|]. cbn [orb]. f_equal.
  destruct (Py.find_from (String c "") s 0 =? -1) eqn:E.
  - apply Z.eqb_eq in E. apply Z.eqb_eq. by apply find_from_shift.
  - apply Z.eqb_neq in E. apply Z.eqb_neq. intros H. apply E.
    by apply (find_from_shift _ _ (0 + 1)).
Qed.

(** A string either has no [c], or splits at its last [c]. *)
Lemma last_char_split (c : ascii) (p : string) :
  (Py.contains (String c "") p = false /\ Py.rfind (String c "") p = -1)
  \/ exists d s, p = d +:+ String c s
                 /\ Py.contains (String c "") s = false
                 /\ Py.rfind (String c "") p = Py.len d.
Proof.
  induction p as [|x p IH].
  - left. split; reflexivity.
  - destruct IH as [[Hc Hr]|(d & s & -> & Hs & Hr)].
    + destruct (Ascii.eqb c x) eqn:E.
      * apply Ascii.eqb_eq in E as <-. right. exists "", p.
        split; [done|]. split; [done|].
        unfold Py.rfind. rewrite <- (append_empty (String c p)).
        by rewrite rfind_char_last.
      * left. split; [by rewrite contains_char_cons, E|].
        unfold Py.rfind. apply rfind_from_none; [done|].
        pose proof (contains_char_cons c x p) as H. rewrite E, Hc in H.
        unfold Py.contains, Py.find in H. by apply negb_false_iff, Z.eqb_eq in H.
    + right. exists (String x d), s. split; [done|]. split; [done|].
      unfold Py.rfind. rewrite <- append_String. by rewrite rfind_char_last.
Qed.

Lemma append_nil_r (s : string) : s +:+ "" = s.
Proof. induction s as [|c s IH]; rewrite ?append_empty, ?append_String; congruence. Qed.

Lemma append_inj_l (a x y : string) : a +:+ x = a +:+ y -> x = y.
Proof.
  induction a as [|c a IH]; rewrite ?append_empty, ?append_String; [done|].
  intros [= H]. by apply IH.
Qed.

Lemma slice_from_0 (p : string) : Py.slice_from p 0 = p.
Proof.
  unfold Py.slice_from, Py.bound, Py.len. cbv zeta.
  replace (Z.to_nat _) with O by (simpl; lia).
  rewrite Nat.sub_0_r. apply substring_whole.
Qed.

Lemma rfind_from_bounds (sub s : string) i :
  0 <= i -> Py.rfind_from sub s i = -1 \/ i <= Py.rfind_from sub s i.
Proof.
  revert i. induction s as [|x s IH]; intros i Hi; cbn [Py.rfind_from].
  - destruct (String.prefix sub ""); lia.
  - destruct (IH (i + 1)) as [->|H]; [lia| |].
    + rewrite Z.eqb_refl. destruct (String.prefix sub (String x s)); lia.
    + destruct (_ =? -1) eqn:E; [|lia]. destruct (String.prefix sub (String x s)); lia.
Qed.

Lemma rfind_from_found (sub s : string) i :
  Py.find_from sub s 0 <> -1 -> 0 <= i -> Py.rfind_from sub s i <> -1.
Proof.
  revert i. induction s as [|x s IH]; intros i; cbn [Py.find_from Py.rfind_from].
  - destruct (String.prefix sub ""); [lia|done].
  - destruct (String.prefix sub (String x s)).
    + intros _ Hi. destruct (rfind_from_bounds sub s (i + 1)) as [->|H]; [lia| |].
      * rewrite Z.eqb_refl. lia.
      * destruct (_ =? -1) eqn:E; [lia|]. lia.
    + intros Hf Hi.
      assert (Py.find_from sub s 0 <> -1) as Hf'.
      { intros H. apply Hf. by apply (find_from_shift _ _ (0 + 1)). }
      specialize (IH (i + 1) Hf' ltac:(lia)).
      apply Z.eqb_neq in IH as E. rewrite E. done.
Qed.

(** An occurrence in the tail of a string puts [rfind] past the head. *)
Lemma rfind_from_app_ge (sub a s : string) i :
  Py.find_from sub s 0 <> -1 -> 0 <= i ->
  i + Py.len a <= Py.rfind_from sub (a +:+ s) i.
Proof.
  intros Hf. revert i. induction a as [|x a IH]; intros i Hi.
  - rewrite append_empty. unfold Py.len. cbn [String.length].
    pose proof (rfind_from_found sub s i Hf Hi).
    destruct (rfind_from_bounds sub s i Hi); lia.
  - rewrite append_String. cbn [Py.rfind_from].
    specialize (IH (i + 1) ltac:(lia)). unfold Py.len in *. cbn [String.length].
    destruct (_ =? -1) eqn:E; [apply Z.eqb_eq in E|]; lia.
Qed.

(** ** File names and extensions *)

Lemma basename_is_last_segment (path : string) :
  Py.contains "/" (os_path.basename path) = false
  /\ exists directory,
      path = directory +:+ os_path.basename path
      /\ (directory = "" \/ exists d, directory = d +:+ "/").
Proof.
  unfold os_path.basename. cbv zeta.
  destruct (last_char_split "/" path) as [[Hc Hr]|(d & s & Hp & Hs & Hr)].
  - rewrite Hr. change (-1 + 1) with 0. rewrite slice_from_0.
    split; [done|]. exists "". split; [done|by left].
  - rewrite Hr.
    assert (Py.slice_from path (Py.len d + 1) = s) as ->.
    { rewrite Hp. apply (slice_from_app d s). }
    split; [done|]. exists (d +:+ "/"). split; [|right; by exists d].
    by rewrite append_assoc.
Qed.

(** X1: [get_filename] returns the part of the path after its last slash:
    it has no slash, and the path is a directory prefix, empty or ending in
    a slash, followed by it. *)
Theorem get_filename_is_last_segment (path : string) :
  Py.contains "/" (get_filename path) = false
  /\ exists directory,
      path = directory +:+ get_filename path
      /\ (directory = "" \/ exists d, directory = d +:+ "/").
Proof. unfold get_filename. apply basename_is_last_segment. Qed.

(** X2: the two parts [os.path.splitext] cuts a file name into make up the
    file name again: [get_basename] followed by the extension of the file
    name is the file name. *)
Theorem get_basename_extension_round_trip (path : string) :
  get_basename path +:+ extension (get_filename path) = get_filename path.
Proof.
  unfold get_basename, extension, get_filename, os_path.splitext. cbv zeta.
  destruct (_ && _); cbn [fst snd].
  - apply slice_to_from.
  - apply append_nil_r.
Qed.

(** X3: the extension of a path is empty, or it is the end of the path from
    its last dot on, and then neither a second dot nor a slash is in it: a
    dot in a directory name never makes an extension. *)
Theorem extension_shape (path : string) :
  extension path = ""
  \/ exists stem name,
      path = stem +:+ extension path
      /\ extension path = "." +:+ name
      /\ Py.contains "." name = false
      /\ Py.contains "/" name = false.
Proof.
  unfold extension, os_path.splitext. cbv zeta.
  destruct (Py.rfind "/" path <? Py.rfind "." path) eqn:Hlt; [|by left].
  destruct (os_path.has_name_before_dot _ _ _ _); [|by left].
  cbn [andb snd]. right. apply Z.ltb_lt in Hlt.
  destruct (last_char_split "." path) as [[_ Hr]|(d & s & Hp & Hs & Hr)].
  { rewrite Hr in Hlt. unfold Py.rfind in Hlt.
    destruct (rfind_from_bounds "/" path 0); lia. }
  assert (Py.slice_from path (Py.rfind "." path) = "." +:+ s) as Hext.
  { rewrite Hr. pose proof (slice_to_from path (Py.len d)) as Hsplit.
    assert (Py.slice_to path (Py.len d) = d) as Hd.
    { rewrite Hp. unfold Py.slice_to, Py.bound, Py.len. cbv zeta.
      rewrite string_length_app.
      destruct (Z.ltb_spec (Z.of_nat (String.length d)) 0); [lia|].
      replace (Z.to_nat _) with (String.length d) by lia.
      apply substring_app_l. }
    rewrite Hd in Hsplit. rewrite Hp in Hsplit at 2.
    by apply append_inj_l in Hsplit. }
  exists d, s. rewrite Hext. split; [exact Hp|]. split; [done|]. split; [done|].
  destruct (Py.contains "/" s) eqn:Hslash; [|done]. exfalso.
  unfold Py.contains, Py.find in Hslash. apply negb_true_iff, Z.eqb_neq in Hslash.
  assert (Py.find_from "/" (String "." s) 0 <> -1) as Hf.
  { cbn [Py.find_from]. rewrite prefix_char. cbn [Ascii.eqb Bool.eqb].
    intros H. apply Hslash. by apply (find_from_shift _ _ (0 + 1)). }
  pose proof (rfind_from_app_ge "/" d (String "." s) 0 Hf ltac:(lia)) as Hge.
  rewrite <- Hp in Hge. unfold Py.rfind in *.
  (* the last slash is then behind the last dot *)
  assert (Py.rfind_from "/" path 0 <> Py.len d) as Hne.
  { rewrite Hp. clear -Hslash. intros H.
    pose proof (rfind_from_app_ge "/" (d +:+ ".") s 0 Hslash ltac:(lia)) as Hge.
    rewrite append_assoc in Hge. change ("." +:+ s) with (String "." s) in Hge.
    unfold Py.len in *. rewrite string_length_app in Hge. simpl in Hge. lia. }
  lia.
Qed.

(** X4: the diff of a logical path with a directory part is written to the
    output directory under that very path, with [.diff] added, and its
    directory is the output directory followed by the directory part. *)
Theorem diff_file_mirrors_logical_path (cfg : config) (directory name : string) :
  Py.contains "/" name = false ->
  let path := directory +:+ "/" +:+ name in
  get_target_dir_and_file_from_path cfg path
  = (OUTPUT_DIR cfg +:+ "/" +:+ directory,
     OUTPUT_DIR cfg +:+ "/" +:+ path +:+ ".diff").
Proof.
  intros Hname path. unfold get_target_dir_and_file_from_path. cbv zeta.
  unfold Py.rfind. subst path. rewrite rfind_last_slash by (done || lia).
  rewrite Z.add_0_l, slice_from_app, slice_to_app.
  by rewrite !append_assoc.
Qed.

Lemma diff_file_mirrors_logical_path_witness :
  Py.contains "/" "build.prop" = false
  /\ get_target_dir_and_file_from_path demo_config "IMAGES/system.img/build.prop"
     = ("diffs/IMAGES/system.img", "diffs/IMAGES/system.img/build.prop.diff").
Proof.
  split; [reflexivity|].
  exact (diff_file_mirrors_logical_path demo_config "IMAGES/system.img" "build.prop" eq_refl).
Defined.

(** ** Newlines and separators *)

Lemma replace_char_deletes (c : ascii) (s : string) :
  Py.replace (String c "") "" s = delete_char c s.
Proof.
  cbn [Py.replace].
  induction s as [|x s IH]; [done|].
  cbn [Py.replace_from delete_char]. rewrite prefix_char, (Ascii.eqb_sym x c).
  destruct (Ascii.eqb c x).
  - rewrite append_empty. exact IH.
  - by rewrite IH.
Qed.

Lemma delete_char_gone (c : ascii) (s : string) :
  Py.contains (String c "") (delete_char c s) = false.
Proof.
  induction s as [|x s IH]; [done|]. cbn [delete_char].
  destruct (Ascii.eqb x c) eqn:E; [done|].
  by rewrite contains_char_cons, (Ascii.eqb_sym c x), E.
Qed.

Lemma delete_char_absent (c : ascii) (s : string) :
  Py.contains (String c "") s = false -> delete_char c s = s.
Proof.
  induction s as [|x s IH]; [done|].
  rewrite contains_char_cons. intros [E Hs]%orb_false_elim.
  cbn [delete_char]. rewrite (Ascii.eqb_sym x c), E. by rewrite IH.
Qed.

Lemma replace_while_char_deletes (c : ascii) (s : string) :
  Py.replace_while (S (String.length s)) (String c "") "" s = delete_char c s.
Proof.
  cbn [Py.replace_while].
  destruct (Py.find (String c "") s =? -1) eqn:E.
  - symmetry. apply delete_char_absent. unfold Py.contains. by rewrite E.
  - rewrite replace_char_deletes.
    destruct s as [|x s]; [done|].
    cbn [String.length Py.replace_while].
    pose proof (delete_char_gone c (String x s)) as H.
    unfold Py.contains in H. apply negb_false_iff in H. by rewrite H.
Qed.

(** X5: [remove_newlines] deletes every newline character of every line and
    changes nothing else; in particular no line of the result has a
    newline, and there are as many lines as before. *)
Theorem remove_newlines_deletes_newlines (input_list : list string) :
  remove_newlines input_list = map (delete_char "010") input_list
  /\ length (remove_newlines input_list) = length input_list
  /\ Forall (fun line => Py.contains newline line = false) (remove_newlines input_list).
Proof.
  assert (remove_newlines input_list = map (delete_char "010") input_list) as H.
  { unfold remove_newlines. apply map_ext. intros line.
    apply replace_while_char_deletes. }
  split; [exact H|]. rewrite H. split; [apply length_map|].
  apply Forall_map, Forall_forall. intros line _. apply delete_char_gone.
Qed.

Lemma find_tail (sub : string) (x : ascii) (s : string) :
  Py.find sub (String x s) = -1 -> Py.find sub s = -1.
Proof.
  unfold Py.find. cbn [Py.find_from].
  destruct (String.prefix sub (String x s)); [lia|].
  intros H. by apply (find_from_shift _ _ (0 + 1)).
Qed.

(** X6: a resolved relative path is in normal form: it has no doubled slash,
    and it does not start with a slash. *)
Theorem get_relative_path_normal_form (cfg : config) (path : string) :
  Py.contains "//" (get_relative_path cfg path) = false
  /\ Py.startswith "/" (get_relative_path cfg path) = false.
Proof.
  unfold get_relative_path. cbv zeta.
  match goal with
  | |- context [Py.replace_while (S (String.length ?r)) "//" "/" ?r] =>
      pose proof (replace_while_enough_rounds "//" "/" (S (String.length r)) r
                    ltac:(simpl; lia) ltac:(lia)) as Hnone;
      generalize dependent (Py.replace_while (S (String.length r)) "//" "/" r)
  end.
  intros t Hnone.
  destruct (Py.startswith "/" t) eqn:Hstart.
  - destruct t as [|x t]; [done|].
    unfold Py.startswith in Hstart. rewrite prefix_char in Hstart.
    destruct (Ascii.eqb "/" x) eqn:E; [|done]. apply Ascii.eqb_eq in E as <-.
    assert (Py.slice_from (String "/" t) 1 = t) as ->.
    { change (String "/" t) with ("" +:+ "/" +:+ t). apply (slice_from_app "" t). }
    split.
    + unfold Py.contains. apply find_tail in Hnone. by rewrite Hnone.
    + destruct t as [|y t]; [done|].
      unfold Py.startswith. rewrite prefix_char.
      destruct (Ascii.eqb "/" y) eqn:E; [|done]. apply Ascii.eqb_eq in E as <-.
      exfalso. revert Hnone. unfold Py.find. cbn [Py.find_from].
      replace (String.prefix "//" (String "/" (String "/" t))) with true; [done|].
      simpl. by destruct t.
  - split; [|done]. unfold Py.contains. by rewrite Hnone.
Qed.

(** ** More on the duplicate filter *)

(** X7: byte identity as [files_are_equal] decides it is symmetric and
    transitive, and a path is identical to itself exactly when it leads to a
    regular file: a missing file is not even equal to itself. *)
Theorem files_are_equal_partial_equivalence (fs : gmap string file) :
  (forall a b, files_are_equal fs a b = files_are_equal fs b a)
  /\ (forall a b c,
         files_are_equal fs a b = true -> files_are_equal fs b c = true ->
         files_are_equal fs a c = true)
  /\ (forall a, files_are_equal fs a a = true <-> is_regular fs a).
Proof.
  unfold files_are_equal, is_regular. split; [|split].
  - intros a b. destruct (fs !! a) as [[ca|]|], (fs !! b) as [[cb|]|]; try done.
    apply String.eqb_sym.
  - intros a b c.
    destruct (fs !! a) as [[ca|]|], (fs !! b) as [[cb|]|], (fs !! c) as [[cc|]|]; try done.
    rewrite !String.eqb_eq. congruence.
  - intros a. destruct (fs !! a) as [[ca|]|].
    + rewrite String.eqb_refl. split; eauto.
    + split; [done|]. intros [? [=]].
    + split; [done|]. intros [? [=]].
Qed.

Lemma inside_unique_list_false (fs : gmap string file) unique_files path :
  inside_unique_list fs unique_files path = false <->
  forall u, u ∈ unique_files -> files_are_equal fs u path = false.
Proof.
  split.
  - intros H u Hu. destruct (files_are_equal fs u path) eqn:E; [|done].
    assert (inside_unique_list fs unique_files path = true) as H'
        by (apply inside_unique_list_true; eauto).
    congruence.
  - intros H. destruct (inside_unique_list fs unique_files path) eqn:E; [|done].
    apply inside_unique_list_true in E as (u & Hu & Heq). apply H in Hu. congruence.
Qed.

(** X8: the output of [filter_duplicates] is a selection of its input in the
    input's order, and no two tuples of it have byte-identical files on the
    same side. *)
Theorem filter_duplicates_selects_distinct (fs : gmap string file) (l : list file_tuple) :
  filter_duplicates fs l `sublist_of` l
  /\ forall i j ki kj,
      (i < j)%nat ->
      filter_duplicates fs l !! i = Some ki ->
      filter_duplicates fs l !! j = Some kj ->
      files_are_equal fs (tuple_file1 ki) (tuple_file1 kj) = false
      /\ files_are_equal fs (tuple_file2 ki) (tuple_file2 kj) = false.
Proof.
  induction l as [|t pre [IHs IHd]] using rev_ind.
  - split; [done|]. intros i j ki kj _ H.
    change (filter_duplicates fs []) with (@nil file_tuple) in H.
    by rewrite lookup_nil in H.
  - rewrite filter_duplicates_snoc.
    destruct (_ || _) eqn:E.
    + split; [by apply sublist_inserts_r|exact IHd].
    + apply orb_false_elim in E as [E1 E2].
      split; [by apply sublist_app|].
      intros i j ki kj Hij Hi Hj.
      destruct (decide (j < length (filter_duplicates fs pre))%nat) as [Hlt|Hge].
      * rewrite lookup_app_l in Hi by lia. rewrite lookup_app_l in Hj by lia. eauto.
      * rewrite lookup_app_r in Hj by lia.
        destruct (j - length (filter_duplicates fs pre))%nat as [|n] eqn:En; [|done].
        injection Hj as <-.
        rewrite lookup_app_l in Hi by lia.
        apply list_elem_of_lookup_2 in Hi.
        split.
        -- eapply inside_unique_list_false in E1; [exact E1|].
           apply list_elem_of_fmap. eauto.
        -- eapply inside_unique_list_false in E2; [exact E2|].
           apply list_elem_of_fmap. eauto.
Qed.

(** X9: a tuple neither of whose files is a regular file (both are missing,
    say) is never dropped, whatever was kept before it. *)
Theorem filter_duplicates_keeps_missing_files (fs : gmap string file)
    (pre : list file_tuple) (t : file_tuple) :
  ~ is_regular fs (tuple_file1 t) ->
  ~ is_regular fs (tuple_file2 t) ->
  filter_duplicates fs (pre ++ [t]) = filter_duplicates fs pre ++ [t].
Proof.
  intros H1 H2. rewrite filter_duplicates_snoc.
  assert (forall us p, ~ is_regular fs p -> inside_unique_list fs us p = false) as Hnone.
  { intros us p Hp. apply inside_unique_list_false. intros u _.
    unfold files_are_equal. unfold is_regular in Hp.
    destruct (fs !! u) as [[cu|]|]; try done.
    destruct (fs !! p) as [[cp|]|]; try done. exfalso. eauto. }
  by rewrite !Hnone.
Qed.

Lemma filter_duplicates_keeps_missing_files_witness :
  ~ is_regular two_assets "/old/c/gone.png"
  /\ filter_duplicates two_assets
       [("c/gone.png", "/old/c/gone.png", "/new/c/gone.png");
        ("d/gone.png", "/old/c/gone.png", "/new/c/gone.png")]
     = [("c/gone.png", "/old/c/gone.png", "/new/c/gone.png");
        ("d/gone.png", "/old/c/gone.png", "/new/c/gone.png")].
Proof.
  assert (forall p, two_assets !! p = None -> ~ is_regular two_assets p) as Hgone.
  { intros p Hp [content Hc]. congruence. }
  split; [by apply Hgone|].
  exact (filter_duplicates_keeps_missing_files two_assets
           [("c/gone.png", "/old/c/gone.png", "/new/c/gone.png")]
           ("d/gone.png", "/old/c/gone.png", "/new/c/gone.png")
           (Hgone "/old/c/gone.png" eq_refl) (Hgone "/new/c/gone.png" eq_refl)).
Defined.

(** ** Failures that are not recorded *)

(** X10: [unzip] never reaches its own error message and [sys.exit(1)]:
    [run_shell_command] has raised by then.  It runs its one command and
    either returns or leaves with [UncomparableFilesException]; nothing is
    written to the error stream. *)
Theorem unzip_never_exits (cfg : config) (w : world) (src dst : string) (g : globals) :
  let cmd := "unzip -q " +:+ src +:+ " -d " +:+ dst in
  let exit_code := snd (popen w (all_commands g) cmd) in
  unzip cfg w src dst g
  = (if shell_successfull cmd exit_code then Ok tt
     else Raise (UncomparableFilesException
                   ("command '" +:+ cmd +:+ "' exited with status: "
                    +:+ str_of_exit_code exit_code)),
     after_command cfg cmd g)
  /\ stderr (after_command cfg cmd g) = stderr g.
Proof.
  intros cmd exit_code. split.
  - unfold unzip, bind. fold cmd. rewrite run_shell_command_unfold. cbv zeta.
    fold exit_code. destruct (shell_successfull cmd exit_code) eqn:E; [|done].
    cbn [snd]. fold exit_code. by rewrite E.
  - unfold after_command. by destruct (QUIET cfg).
Qed.

(** X11: when the [file] command prints nothing, the first line of its
    output is missing and the comparator leaves with [IndexError].  The loop
    of [compare_target_files] only catches [UncomparableFilesException], so
    the run ends there and the pair is not recorded as uncomparable. *)
Theorem unclassified_file_is_an_index_error (cfg : config) (w : world)
    (file1 file2 : string) (g : globals) (exit_code : option Z) :
  extension file1 = extension file2 ->
  String.eqb (Py.slice_from (extension file1) 1) "img" = false ->
  popen w (all_commands g) (file_type_command file1) = ([], exit_code) ->
  shell_successfull (file_type_command file1) exit_code = true ->
  (forall depth parent_dir all_diffs,
      compare_files_recursive cfg w (S depth) file1 file2 parent_dir all_diffs g
      = (Raise IndexError,
         after_command cfg (file_type_command file1)
           (add_stdout ("comparing " +:+ parent_dir +:+ " ...") g)))
  /\ (forall all_diffs file_pair,
         recursion_limit w <> O ->
         Py.split " " file_pair !! 0%nat = Some file1 ->
         Py.split " " file_pair !! 1%nat = Some file2 ->
         exists g',
           compare_target_pair cfg w all_diffs file_pair g = (Raise IndexError, g')
           /\ uncomparable_files g' = uncomparable_files g).
Proof.
  intros Hext Himg Hout Hok.
  assert (forall depth parent_dir all_diffs,
      compare_files_recursive cfg w (S depth) file1 file2 parent_dir all_diffs g
      = (Raise IndexError,
         after_command cfg (file_type_command file1)
           (add_stdout ("comparing " +:+ parent_dir +:+ " ...") g))) as Hrec.
  { intros. cbn [compare_files_recursive]. cbv zeta.
    rewrite <- Hext, String.eqb_refl, Himg. cbn [negb].
    unfold bind at 1. unfold print at 1. unfold bind at 1.
    unfold is_text_file, get_file_type, bind. fold (file_type_command file1).
    rewrite run_shell_command_unfold. cbv zeta.
    cbn [all_commands add_stdout]. rewrite Hout. cbn [fst snd]. rewrite Hok.
    reflexivity. }
  split; [exact Hrec|].
  intros all_diffs file_pair Hlim H0 H1. eexists.
  unfold compare_target_pair, item. rewrite H0, H1.
  unfold bind at 1 2, ret at 1 2. unfold try_except, bind, compare_files.
  destruct (recursion_limit w) as [|depth]; [done|].
  unfold bind. rewrite Hrec. split; [reflexivity|].
  by rewrite after_command_uncomparable_files.
Qed.

Lemma unclassified_file_is_an_index_error_witness :
  extension modem1 = extension modem2
  /\ compare_files_recursive demo_config silent_world 1 modem1 modem2 "RADIO/modem.bin" []
       no_globals
     = (Raise IndexError,
        after_command demo_config (file_type_command modem1)
          (add_stdout "comparing RADIO/modem.bin ..." no_globals)).
Proof.
  split; [reflexivity|].
  exact (proj1 (unclassified_file_is_an_index_error demo_config silent_world modem1 modem2
                  no_globals None eq_refl eq_refl eq_refl eq_refl)
           O "RADIO/modem.bin" []).
Defined.

(** ** The recursion limit *)

Lemma simulates_refl {A} (m : M A) : simulates m m.
Proof. by intros g r g' H _. Qed.

Lemma simulates_bind {A B} (m1 m2 : M A) (k1 k2 : A -> M B) :
  simulates m1 m2 -> (forall a, simulates (k1 a) (k2 a)) ->
  simulates (bind m1 k1) (bind m2 k2).
Proof.
  intros Hm Hk g r g'. unfold bind.
  destruct (m1 g) as [[a|e] g1] eqn:E1.
  - intros E2 Hr. rewrite (Hm _ _ _ E1) by done. by apply Hk.
  - intros [= <- <-] Hr. rewrite (Hm _ _ _ E1); [done|].
    intros [= ->]. by apply Hr.
Qed.

Lemma simulates_for_each {A B} (l : list A) (acc : B) (body1 body2 : B -> A -> M B) :
  (forall acc x, simulates (body1 acc x) (body2 acc x)) ->
  simulates (for_each l acc body1) (for_each l acc body2).
Proof.
  intros Hbody. revert acc. induction l as [|x l IH]; intros acc; cbn [for_each].
  - apply simulates_refl.
  - apply simulates_bind; auto.
Qed.

Ltac simulation_step :=
  match goal with
  | |- simulates ?m ?m => apply simulates_refl
  | |- simulates (if ?b then _ else _) (if ?b then _ else _) => destruct b
  | |- simulates (for_each _ _ _) (for_each _ _ _) =>
      apply simulates_for_each; intros ? ?; cbv beta
  | |- simulates (bind _ _) (bind _ _) => apply simulates_bind; [|intros ?; cbv beta]
  end.

Lemma after_extraction_simulates (cfg : config) (w : world)
    (recurse1 recurse2 : string -> string -> string -> dict
                         -> M (option string * list string * dict))
    parent_dir all_diffs diffs :
  (forall file1 file2 parent_dir all_diffs,
      simulates (recurse1 file1 file2 parent_dir all_diffs)
                (recurse2 file1 file2 parent_dir all_diffs)) ->
  simulates (after_extraction cfg w recurse1 parent_dir all_diffs diffs)
            (after_extraction cfg w recurse2 parent_dir all_diffs diffs).
Proof.
  intros Hrec. unfold after_extraction. cbv zeta.
  repeat simulation_step. apply Hrec.
Qed.


Lemma compare_files_recursive_simulates (cfg : config) (w : world) (depth : nat) :
  forall depth' file1 file2 parent_dir all_diffs,
    (depth <= depth')%nat ->
    simulates (compare_files_recursive cfg w depth file1 file2 parent_dir all_diffs)
              (compare_files_recursive cfg w depth' file1 file2 parent_dir all_diffs).
Proof.
  induction depth as [|depth IH]; intros depth' file1 file2 parent_dir all_diffs Hle.
  - intros g r g' [= <- <-]. done.
  - destruct depth' as [|depth']; [lia|].
    cbn [compare_files_recursive]. cbv zeta.
    assert (forall diffs,
               simulates
                 (after_extraction cfg w (compare_files_recursive cfg w depth)
                    parent_dir all_diffs diffs)
                 (after_extraction cfg w (compare_files_recursive cfg w depth')
                    parent_dir all_diffs diffs)) as Hafter.
    { intros diffs. apply after_extraction_simulates. intros. apply IH. lia. }
    repeat first [simulation_step | apply Hafter].
Qed.

(** X12: the recursion limit is only a limit.  A comparison that ends
    without [RecursionError], be it with a result or with another
    exception, ends the same way and with the same globals under every
    larger limit. *)
Theorem larger_recursion_limit_changes_nothing (cfg : config) (w : world)
    (depth depth' : nat) (file1 file2 parent_dir : string) (all_diffs : dict)
    (g : globals) (r : result (option string * list string * dict)) (g' : globals) :
  compare_files_recursive cfg w depth file1 file2 parent_dir all_diffs g = (r, g') ->
  r <> Raise RecursionError ->
  (depth <= depth')%nat ->
  compare_files_recursive cfg w depth' file1 file2 parent_dir all_diffs g = (r, g').
Proof.
  intros Hrun Hr Hle. by apply (compare_files_recursive_simulates cfg w depth depth').
Qed.

Lemma larger_recursion_limit_changes_nothing_witness :
  let outcome :=
    (Ok (Some "RADIO/modem.bin", [modem1 +:+ " " +:+ modem2],
         [("RADIO/modem.bin", [modem1 +:+ " " +:+ modem2])]),
     add_stdout ("unsupported file! " +:+ modem1)
       (after_command demo_config (file_type_command modem1)
          (add_stdout "comparing RADIO/modem.bin ..." no_globals))) in
  compare_files_recursive demo_config data_world 1 modem1 modem2 "RADIO/modem.bin" []
    no_globals = outcome
  /\ compare_files_recursive demo_config data_world 3 modem1 modem2 "RADIO/modem.bin" []
       no_globals = outcome.
Proof.
  intros outcome.
  assert (compare_files_recursive demo_config data_world 1 modem1 modem2 "RADIO/modem.bin" []
            no_globals = outcome) as H1 by (vm_compute; reflexivity).
  split; [exact H1|].
  exact (larger_recursion_limit_changes_nothing demo_config data_world 1 3 modem1 modem2
           "RADIO/modem.bin" [] no_globals _ _ H1 ltac:(discriminate) ltac:(lia)).
Defined.

(** ** Nodes without containers *)

Lemma elem_spec (x : string) (l : list string) : elem x l = true <-> x ∈ l.
Proof.
  unfold elem. rewrite existsb_exists. split.
  - intros (y & Hy & Heq). apply String.eqb_eq in Heq as ->. by apply list_elem_of_In.
  - intros H. exists x. split; [by apply list_elem_of_In|apply String.eqb_refl].
Qed.

Lemma insert_ranked_perm rank x l : insert_ranked rank x l ≡ₚ x :: l.
Proof.
  induction l as [|y l IH]; [done|]. cbn [insert_ranked].
  destruct (_ <=? _)%nat; [done|]. rewrite IH. apply Permutation_swap.
Qed.

Lemma list_of_set_perm (w : world) (members : list string) :
  list_of_set w members ≡ₚ members.
Proof.
  unfold list_of_set. generalize (set_rank w members). intros rank.
  induction members as [|x l IH]; [done|]. cbn [foldr].
  by rewrite insert_ranked_perm, IH.
Qed.

Lemma distinct_spec (l : list string) :
  NoDup (distinct l) /\ forall x, x ∈ distinct l <-> x ∈ l.
Proof.
  induction l as [|y l [IHn IHe]]; cbn [distinct].
  - split; [constructor|done].
  - destruct (elem y l) eqn:E.
    + split; [done|]. intros x. rewrite IHe, elem_of_cons.
      apply elem_spec in E. split; [auto|]. intros [->|?]; done.
    + split.
      * constructor; [|done]. rewrite IHe. intros H. apply elem_spec in H. congruence.
      * intros x. by rewrite !elem_of_cons, IHe.
Qed.

(** [list(set(a) - set(b))] has every member of [a] that is not in [b],
    once. *)
Lemma set_difference_spec (w : world) (a b : list string) :
  NoDup (set_difference w a b)
  /\ forall x, x ∈ set_difference w a b <-> x ∈ a /\ x ∉ b.
Proof.
  unfold set_difference.
  destruct (distinct_spec (List.filter (fun x => negb (elem x b)) a)) as [Hn He].
  split.
  - by rewrite list_of_set_perm.
  - intros x. rewrite list_of_set_perm, He, list_elem_of_In, filter_In, <- list_elem_of_In.
    rewrite negb_true_iff. split; intros [Ha Hb]; (split; [done|]).
    + intros H. apply elem_spec in H. congruence.
    + destruct (elem x b) eqn:E; [|done]. apply elem_spec in E. done.
Qed.

(** X13: a node none of whose differing entries is a container does not
    recurse and runs no command: it returns the entries, and it records
    them under its parent path, each once; when there is no entry at all,
    nothing is recorded. *)
Theorem node_without_containers_records_its_entries (cfg : config) (w : world)
    (recurse : string -> string -> string -> dict -> M (option string * list string * dict))
    (parent_dir : string) (all_diffs : dict) (diffs : list string) (g : globals) :
  can_extract_further diffs = [] ->
  exists recorded,
    after_extraction cfg w recurse parent_dir all_diffs diffs g
    = (Ok (Some parent_dir, diffs,
           match diffs with
           | [] => all_diffs
           | _ :: _ => dict_set parent_dir recorded all_diffs
           end), g)
    /\ NoDup recorded
    /\ forall x, x ∈ recorded <-> x ∈ diffs.
Proof.
  intros Hnone. exists (set_difference w diffs []).
  destruct (set_difference_spec w diffs []) as [Hn He].
  split; [|split; [done|]].
  - unfold after_extraction. rewrite Hnone. cbv zeta.
    unfold bind, read_uncomparable_files.
    replace (set_difference w [] (uncomparable_files g)) with (@nil string) by reflexivity.
    cbn [length Nat.eqb]. unfold ret. do 3 f_equal.
    destruct (set_difference w diffs []) as [|y l] eqn:E.
    + destruct diffs as [|d diffs]; [done|].
      exfalso. assert (d ∈ @nil string) as H; [|by apply not_elem_of_nil in H].
      apply He. split; [left|apply not_elem_of_nil].
    + destruct diffs as [|d diffs]; [|done].
      exfalso. assert (y ∈ y :: l) as H by left. apply He in H as [H _].
      by apply not_elem_of_nil in H.
  - intros x. rewrite He. split; [by intros [? _]|]. intros H. split; [done|].
    apply not_elem_of_nil.
Qed.

Lemma node_without_containers_records_its_entries_witness :
  can_extract_further ["/tmp/a/x.txt /tmp/b/x.txt"; "/tmp/a/y.so /tmp/b/y.so"] = []
  /\ exists recorded,
      after_extraction demo_config data_world
        (compare_files_recursive demo_config data_world 0) "IMAGES/system.img" []
        ["/tmp/a/x.txt /tmp/b/x.txt"; "/tmp/a/y.so /tmp/b/y.so"] no_globals
      = (Ok (Some "IMAGES/system.img",
             ["/tmp/a/x.txt /tmp/b/x.txt"; "/tmp/a/y.so /tmp/b/y.so"],
             dict_set "IMAGES/system.img" recorded []), no_globals)
      /\ NoDup recorded
      /\ forall x, x ∈ recorded
                   <-> x ∈ ["/tmp/a/x.txt /tmp/b/x.txt"; "/tmp/a/y.so /tmp/b/y.so"].
Proof.
  split; [reflexivity|].
  exact (node_without_containers_records_its_entries demo_config data_world
           (compare_files_recursive demo_config data_world 0) "IMAGES/system.img" []
           ["/tmp/a/x.txt /tmp/b/x.txt"; "/tmp/a/y.so /tmp/b/y.so"] no_globals eq_refl).
Defined.

(** ** Splitting and joining *)

Lemma split_cons_eq (c : ascii) (s : string) :
  Py.split c (String c s) = "" :: Py.split c s.
Proof. cbn [Py.split]. by rewrite Ascii.eqb_refl. Qed.

Lemma split_cons_ne (c x : ascii) (s : string) :
  Ascii.eqb x c = false ->
  exists w ws, Py.split c s = w :: ws /\ Py.split c (String x s) = String x w :: ws.
Proof.
  intros E. cbn [Py.split]. rewrite E.
  destruct (Py.split c s) as [|w ws] eqn:Es; [by apply split_nonempty in Es|eauto].
Qed.

(** Splitting what was put together with the separator gives the pieces of
    both parts. *)
Lemma split_app (c : ascii) (a b : string) :
  Py.split c (a +:+ String c b) = Py.split c a ++ Py.split c b.
Proof.
  induction a as [|x a IH].
  - rewrite append_empty. apply split_cons_eq.
  - rewrite append_String. destruct (Ascii.eqb x c) eqn:E.
    + apply Ascii.eqb_eq in E as ->. by rewrite !split_cons_eq, IH.
    + destruct (split_cons_ne c x a E) as (w & ws & Hs & ->).
      destruct (split_cons_ne c x (a +:+ String c b) E) as (w' & ws' & Hs' & ->).
      rewrite IH, Hs in Hs'. by injection Hs' as <- <-.
Qed.

Lemma split_without_separator (c : ascii) (s : string) :
  Py.contains (String c "") s = false -> Py.split c s = [s].
Proof.
  induction s as [|x s IH]; [done|].
  rewrite contains_char_cons. intros [E Hs]%orb_false_elim.
  rewrite Ascii.eqb_sym in E.
  destruct (split_cons_ne c x s E) as (w & ws & Hw & ->).
  rewrite IH in Hw by done. by injection Hw as <- <-.
Qed.

Lemma split_pieces_without_separator (c : ascii) (s : string) :
  Forall (fun piece => Py.contains (String c "") piece = false) (Py.split c s).
Proof.
  induction s as [|x s IH]; [by repeat constructor|].
  destruct (Ascii.eqb x c) eqn:E.
  - apply Ascii.eqb_eq in E as ->. rewrite split_cons_eq. by constructor.
  - destruct (split_cons_ne c x s E) as (w & ws & Hw & ->).
    rewrite Hw in IH. inversion IH as [|? ? Hhead Htail]; subst.
    constructor; [|done].
    by rewrite contains_char_cons, (Ascii.eqb_sym c x), E.
Qed.

(** [sep.join(s.split(sep)) == s] *)
Lemma join_split (c : ascii) (s : string) :
  Py.join (String c "") (Py.split c s) = s.
Proof.
  unfold Py.join. induction s as [|x s IH]; [done|].
  destruct (Ascii.eqb x c) eqn:E.
  - apply Ascii.eqb_eq in E as ->. rewrite split_cons_eq.
    destruct (Py.split c s) as [|w ws] eqn:Es; [by apply split_nonempty in Es|].
    cbn [String.concat]. rewrite append_empty. cbn [String.concat] in IH.
    by rewrite <- IH.
  - destruct (split_cons_ne c x s E) as (w & ws & Hw & ->).
    rewrite Hw in IH. destruct ws as [|w2 ws]; cbn [String.concat] in *.
    + by rewrite IH.
    + by rewrite append_String, IH.
Qed.

(** ** The full logical path of a leaf *)

Section FullPath.

Context (cfg : config).

(** One round of the loop of [get_full_path]. *)
Lemma full_path_step (full_path directory : string) :
  Py.contains "/" directory = false ->
  let next := if negb (elem directory (Py.split "/" full_path))
              then full_path +:+ ("/" +:+ directory) else full_path in
  directory ∈ Py.split "/" next
  /\ (forall d, d ∈ Py.split "/" full_path -> d ∈ Py.split "/" next)
  /\ exists suffix, next = full_path +:+ suffix.
Proof.
  intros Hd next. subst next.
  destruct (elem directory (Py.split "/" full_path)) eqn:E; cbn [negb].
  - apply elem_spec in E. split; [done|]. split; [done|].
    exists "". by rewrite append_nil_r.
  - change ("/" +:+ directory) with (String "/" directory).
    rewrite split_app, (split_without_separator "/" directory Hd).
    split; [apply elem_of_app; right; by left|].
    split; [intros d H; apply elem_of_app; by left|eauto].
Qed.

Lemma full_path_loop (dirs : list string) (start : string) :
  Forall (fun d => Py.contains "/" d = false) dirs ->
  let result :=
    fold_left
      (fun full_path directory =>
         if negb (elem directory (Py.split "/" full_path))
         then full_path +:+ ("/" +:+ directory) else full_path)
      dirs start in
  (forall d, d ∈ dirs -> d ∈ Py.split "/" result)
  /\ (forall d, d ∈ Py.split "/" start -> d ∈ Py.split "/" result)
  /\ exists suffix, result = start +:+ suffix.
Proof.
  intros Hdirs. revert start.
  induction Hdirs as [|d dirs Hd Hdirs IH]; intros start; cbv zeta; cbn [fold_left].
  - split; [by intros d H%not_elem_of_nil|]. split; [done|].
    exists "". by rewrite append_nil_r.
  - destruct (full_path_step start d Hd) as (Hin & Hkeep & suffix1 & Hsuffix1).
    cbv zeta in *.
    destruct (IH (if negb (elem d (Py.split "/" start))
                  then start +:+ ("/" +:+ d) else start))
      as (Hall & Hkeep' & suffix2 & Hsuffix2).
    split; [|split].
    + intros x [->|Hx]%elem_of_cons; auto.
    + auto.
    + exists (suffix1 +:+ suffix2). rewrite Hsuffix2, Hsuffix1. apply append_assoc.
Qed.

Lemma full_path_loop_fixed (dirs : list string) (start : string) :
  (forall d, d ∈ dirs -> d ∈ Py.split "/" start) ->
  fold_left
    (fun full_path directory =>
       if negb (elem directory (Py.split "/" full_path))
       then full_path +:+ ("/" +:+ directory) else full_path)
    dirs start = start.
Proof.
  induction dirs as [|d dirs IH]; intros Hin; cbn [fold_left]; [done|].
  assert (elem d (Py.split "/" start) = true) as ->.
  { apply elem_spec, Hin. by left. }
  cbn [negb]. apply IH. intros x Hx. apply Hin. by right.
Qed.

Lemma get_full_path_facts (parent_path path : string) :
  (exists suffix, get_full_path cfg parent_path path = parent_path +:+ suffix)
  /\ (forall directory,
         directory ∈ Py.split "/" (get_relative_path cfg path) ->
         directory ∈ Py.split "/" (get_full_path cfg parent_path path))
  /\ get_full_path cfg (get_full_path cfg parent_path path) path
     = get_full_path cfg parent_path path.
Proof.
  unfold get_full_path. cbv zeta.
  destruct (full_path_loop (Py.split "/" (get_relative_path cfg path)) parent_path
              (split_pieces_without_separator "/" _)) as (Hall & _ & Hsuffix).
  cbv zeta in *. split; [exact Hsuffix|]. split; [exact Hall|].
  by apply full_path_loop_fixed.
Qed.

(** X14: the full logical path of a leaf starts with its parent path, has
    every segment of the leaf's relative path among its own segments, and
    is stable: resolving the same leaf against it again changes nothing. *)
Theorem get_full_path_extends_parent (parent_path path : string) :
  (exists suffix, get_full_path cfg parent_path path = parent_path +:+ suffix)
  /\ (forall directory,
         directory ∈ Py.split "/" (get_relative_path cfg path) ->
         directory ∈ Py.split "/" (get_full_path cfg parent_path path))
  /\ get_full_path cfg (get_full_path cfg parent_path path) path
     = get_full_path cfg parent_path path.
Proof. apply get_full_path_facts. Qed.

End FullPath.

(** ** From the dict of differences to the list of leaves *)

Lemma split_two_words (c : ascii) (s : string) :
  Py.contains (String c "") s = true ->
  exists a b, Py.split c s !! 0%nat = Some a /\ Py.split c s !! 1%nat = Some b.
Proof.
  intros Hc. destruct (last_char_split c s) as [[Hn _]|(d & t & -> & _ & _)]; [congruence|].
  rewrite split_app.
  destruct (Py.split c d) as [|a [|b rest]] eqn:Ed; [by apply split_nonempty in Ed| |].
  - destruct (Py.split c t) as [|b rest] eqn:Et; [by apply split_nonempty in Et|].
    by exists a, b.
  - by exists a, b.
Qed.

Lemma split_one_word (c : ascii) (s : string) :
  Py.contains (String c "") s = false -> Py.split c s !! 1%nat = None.
Proof. intros H. by rewrite split_without_separator. Qed.

Section MergeFacts.

Context (cfg : config).

Lemma merge_pairs_ok parent_path disk_paths full_list :
  Forall (fun pair => Py.contains " " pair = true) disk_paths ->
  exists new,
    merge_pairs cfg parent_path disk_paths full_list = inr (full_list ++ new)
    /\ length new = length disk_paths
    /\ Forall (fun t => exists suffix, tuple_path t = parent_path +:+ suffix) new.
Proof.
  intros H. revert full_list.
  induction H as [|pair rest Hpair Hrest IH]; intros full_list; cbn [merge_pairs].
  - exists []. by rewrite app_nil_r.
  - destruct (split_two_words " " pair Hpair) as (file1 & file2 & -> & ->).
    destruct (IH (full_list ++ [(get_full_path cfg parent_path file1, file1, file2)]))
      as (new & -> & Hlen & Hall).
    exists ((get_full_path cfg parent_path file1, file1, file2) :: new).
    split; [by rewrite <- app_assoc|]. split; [simpl; lia|].
    constructor; [|done].
    apply (get_full_path_facts cfg parent_path file1).
Qed.

Lemma merge_pairs_fails parent_path disk_paths full_list :
  Exists (fun pair => Py.contains " " pair = false) disk_paths ->
  merge_pairs cfg parent_path disk_paths full_list = inl Err.IndexError.
Proof.
  intros H. revert full_list.
  induction H as [pair rest Hpair|pair rest Hrest IH]; intros full_list; cbn [merge_pairs].
  - rewrite (split_one_word " " pair Hpair). by destruct (Py.split " " pair !! 0%nat).
  - destruct (Py.split " " pair !! 0%nat), (Py.split " " pair !! 1%nat); auto.
Qed.

Lemma has_space_or_not (pairs : list string) :
  Forall (fun pair => Py.contains " " pair = true) pairs
  \/ Exists (fun pair => Py.contains " " pair = false) pairs.
Proof.
  induction pairs as [|pair rest [IH|IH]]; [by left| |right; by right].
  destruct (Py.contains " " pair) eqn:E; [left; by constructor|right; by left].
Qed.

(** X15: [merge_path_with_files] turns every recorded pair into one leaf,
    and the logical path of each leaf starts with a parent path of the
    dict; it fails, with [IndexError], exactly when
    some recorded pair has no space to split at. *)
Theorem merge_path_with_files_one_leaf_per_pair (all_diffs : dict) :
  (merge_path_with_files cfg all_diffs = inl Err.IndexError
   <-> Exists (fun entry => Exists (fun pair => Py.contains " " pair = false) (snd entry))
         all_diffs)
  /\ forall full_list,
      merge_path_with_files cfg all_diffs = inr full_list ->
      length full_list = list_sum (map (fun entry => length (snd entry)) all_diffs)
      /\ Forall (fun t => exists entry suffix,
                     entry ∈ all_diffs /\ tuple_path t = fst entry +:+ suffix)
           full_list.
Proof.
  unfold merge_path_with_files.
  assert (forall acc,
      (merge_entries cfg all_diffs acc = inl Err.IndexError
       <-> Exists (fun entry => Exists (fun pair => Py.contains " " pair = false) (snd entry))
             all_diffs)
      /\ forall full_list,
          merge_entries cfg all_diffs acc = inr full_list ->
          exists new,
            full_list = acc ++ new
            /\ length new = list_sum (map (fun entry => length (snd entry)) all_diffs)
            /\ Forall (fun t => exists entry suffix,
                           entry ∈ all_diffs /\ tuple_path t = fst entry +:+ suffix) new)
    as Hgen.
  { induction all_diffs as [|[parent_path disk_paths] rest IH]; intros acc;
      cbn [merge_entries].
    - split; [split; [done|by intros H%Exists_nil]|].
      intros full_list [= <-]. exists []. by rewrite app_nil_r.
    - destruct (has_space_or_not disk_paths) as [Hok|Hbad].
      + destruct (merge_pairs_ok parent_path disk_paths acc Hok) as (new1 & -> & Hlen1 & Hall1).
        destruct (IH (acc ++ new1)) as [IHerr IHok]. split.
        * rewrite IHerr, Exists_cons. cbn [snd]. split; [auto|].
          intros [Hbad|?]; [|done]. exfalso.
          apply Exists_exists in Hbad as (pair & Hin & Hno).
          rewrite Forall_forall in Hok. apply Hok in Hin. congruence.
        * intros full_list Hrun. apply IHok in Hrun as (new2 & -> & Hlen2 & Hall2).
          exists (new1 ++ new2). split; [by rewrite app_assoc|].
          split; [rewrite length_app; simpl; lia|].
          apply Forall_app. split.
          -- eapply Forall_impl; [exact Hall1|]. intros t [suffix Ht].
             exists (parent_path, disk_paths), suffix. split; [left|done].
          -- eapply Forall_impl; [exact Hall2|]. intros t (entry & suffix & Hin & Ht).
             exists entry, suffix. split; [by right|done].
      + rewrite (merge_pairs_fails parent_path disk_paths acc Hbad).
        split; [|done]. split; [|done]. intros _. by left. }
  destruct (Hgen []) as [Herr Hok]. split; [exact Herr|].
  intros full_list Hrun. apply Hok in Hrun as (new & -> & Hlen & Hall). done.
Qed.

End MergeFacts.

(** ** The summary per extension *)

Lemma assoc_get_set_eq {V} (k : string) (v : V) (d : list (string * V)) :
  assoc_get k (assoc_set k v d) = Some v.
Proof.
  induction d as [|[k' v'] d IH]; cbn [assoc_set assoc_get].
  - by rewrite String.eqb_refl.
  - destruct (String.eqb k' k) eqn:E; cbn [assoc_get]; rewrite E; auto.
Qed.

Lemma assoc_get_set_ne {V} (k k2 : string) (v : V) (d : list (string * V)) :
  k <> k2 -> assoc_get k2 (assoc_set k v d) = assoc_get k2 d.
Proof.
  intros Hne. induction d as [|[k' v'] d IH]; cbn [assoc_set assoc_get].
  - apply String.eqb_neq in Hne. by rewrite Hne.
  - destruct (String.eqb k' k) eqn:E; cbn [assoc_get].
    + apply String.eqb_eq in E as ->. apply String.eqb_neq in Hne. by rewrite Hne.
    + by rewrite IH.
Qed.

Lemma summary_loop_app (l1 l2 : list file_tuple) (tables : extension_tables) :
  summary_loop (l1 ++ l2) tables
  = match summary_loop l1 tables with
    | inl e => inl e
    | inr tables' => summary_loop l2 tables'
    end.
Proof.
  revert tables. induction l1 as [|t l1 IH]; intros tables; cbn [summary_loop app]; [done|].
  destruct (summary_step tables t); [done|apply IH].
Qed.

Lemma summary_step_describes (seen : list file_tuple) (tables : extension_tables)
    (file_pair : file_tuple) :
  tables_describe seen tables ->
  exists tables',
    summary_step tables file_pair = inr tables'
    /\ tables_describe (seen ++ [file_pair]) tables'.
Proof.
  intros Hdesc. unfold summary_step. cbv zeta. fold (summary_key file_pair).
  set (k := summary_key file_pair).
  destruct (Hdesc k) as [Hfiles Hcount].
  assert (forall ext, filed_under ext (seen ++ [file_pair])
                      = if String.eqb k ext then filed_under ext seen ++ [file_pair]
                        else filed_under ext seen) as Hfiled.
  { intros ext. unfold filed_under. rewrite List.filter_app. cbn [List.filter]. fold k.
    destruct (String.eqb k ext); [done|by rewrite app_nil_r]. }
  destruct (filed_under k seen) as [|f fs] eqn:Ek.
  - rewrite Hfiles. cbn [ext_summary file_extensions]. rewrite !assoc_get_set_eq.
    eexists. split; [reflexivity|].
    intros ext. cbn [ext_summary file_extensions]. rewrite Hfiled.
    destruct (String.eqb k ext) eqn:E.
    + apply String.eqb_eq in E as <-. rewrite Ek, !assoc_get_set_eq. done.
    + apply String.eqb_neq in E. rewrite !assoc_get_set_ne by done. apply Hdesc.
  - rewrite Hfiles. cbv beta iota. rewrite Hfiles, Hcount.
    eexists. split; [reflexivity|].
    intros ext. cbn [ext_summary file_extensions]. rewrite Hfiled.
    destruct (String.eqb k ext) eqn:E.
    + apply String.eqb_eq in E as <-. rewrite Ek, !assoc_get_set_eq.
      cbn [app]. split; [done|]. f_equal. cbn [length]. rewrite length_app. simpl. lia.
    + apply String.eqb_neq in E. rewrite !assoc_get_set_ne by done. apply Hdesc.
Qed.

(** X16: [summary_for_extensions] never fails on a missing key, and its two
    dicts agree with the input.  A leaf is filed by the extension of its
    side-1 file on disk, [file1], and under [no-extension] when that is
    empty; neither its logical path nor [file2] is looked at.  Under every
    key stand the leaves filed under it, in their order, and their number;
    a key no leaf is filed under is in neither dict. *)
Theorem summary_for_extensions_counts (file_paths : list file_tuple) :
  exists tables,
    summary_for_extensions file_paths = inr tables
    /\ forall ext,
        assoc_get ext (file_extensions tables)
        = match filed_under ext file_paths with [] => None | files => Some files end
        /\ assoc_get ext (ext_summary tables)
           = match filed_under ext file_paths with
             | [] => None
             | files => Some (Z.of_nat (length files))
             end.
Proof.
  unfold summary_for_extensions.
  induction file_paths as [|file_pair seen (tables & Hrun & Hdesc)] using rev_ind.
  - eexists. split; [reflexivity|]. intros ext. done.
  - rewrite summary_loop_app, Hrun. cbn [summary_loop].
    destruct (summary_step_describes seen tables file_pair Hdesc) as (tables' & -> & Hdesc').
    by exists tables'.
Qed.

(** ** Build information *)

Lemma build_info_loop_spec (build_props : list string) :
  forall build_info,
    (build_info_loop build_props build_info = inl Err.ValueError
     <-> Exists malformed_property_line build_props)
    /\ forall found,
        build_info_loop build_props build_info = inr found ->
        exists new,
          found = build_info ++ new
          /\ Forall (fun entry =>
                       fst entry = "ro.system.build.date.utc"
                       /\ fst entry +:+ "=" +:+ snd entry ∈ build_props) new.
Proof.
  induction build_props as [|line rest IH]; intros build_info; cbn [build_info_loop].
  - split; [split; [done|by intros H%Exists_nil]|].
    intros found [= <-]. exists []. by rewrite app_nil_r.
  - assert (forall acc,
               ~ malformed_property_line line ->
               (build_info_loop rest acc = inl Err.ValueError
                <-> Exists malformed_property_line (line :: rest))) as Hskip.
    { intros acc Hgood. destruct (IH acc) as [IHerr _]. rewrite IHerr, Exists_cons.
      split; [auto|]. intros [?|?]; done. }
    assert (forall new : list (string * string),
               Forall (fun entry => fst entry = "ro.system.build.date.utc"
                                    /\ fst entry +:+ "=" +:+ snd entry ∈ rest) new ->
               Forall (fun entry => fst entry = "ro.system.build.date.utc"
                                    /\ fst entry +:+ "=" +:+ snd entry ∈ line :: rest) new)
      as Hweaken.
    { intros new H. eapply Forall_impl; [exact H|]. intros e [? ?]. split; [done|by right]. }
    destruct (Py.startswith "#" line) eqn:Ecomment.
    { cbn [orb]. destruct (IH build_info) as [IHerr IHok]. split.
      - apply Hskip. intros (H & _). congruence.
      - intros found Hrun. apply IHok in Hrun as (new & -> & Hall). eauto. }
    destruct (String.eqb line "") eqn:Eempty.
    { cbn [orb]. apply String.eqb_eq in Eempty as ->.
      destruct (IH build_info) as [IHerr IHok]. split.
      - apply Hskip. intros (_ & H & _). done.
      - intros found Hrun. apply IHok in Hrun as (new & -> & Hall). eauto. }
    cbn [orb]. apply String.eqb_neq in Eempty.
    destruct (Py.split "=" line) as [|prop [|info [|third more]]] eqn:Esplit.
    + split; [|done]. split; [|done]. intros _. left. repeat split; try done.
      rewrite Esplit. done.
    + split; [|done]. split; [|done]. intros _. left. repeat split; try done.
      rewrite Esplit. done.
    + assert (~ malformed_property_line line) as Hgood.
      { intros (_ & _ & H). rewrite Esplit in H. done. }
      assert (line = prop +:+ "=" +:+ info) as Hline.
      { rewrite <- (join_split "=" line), Esplit. reflexivity. }
      destruct (elem prop ["ro.system.build.date.utc"]) eqn:Eprop.
      * destruct (IH (build_info ++ [(prop, info)])) as [IHerr IHok]. split.
        -- by apply Hskip.
        -- intros found Hrun. apply IHok in Hrun as (new & -> & Hall).
           exists ((prop, info) :: new). split; [by rewrite <- app_assoc|].
           constructor; [|eauto]. cbn [fst snd]. split.
           ++ unfold elem in Eprop. cbn [existsb] in Eprop.
              rewrite orb_false_r in Eprop. by apply String.eqb_eq in Eprop.
           ++ rewrite <- Hline. by left.
      * destruct (IH build_info) as [IHerr IHok]. split.
        -- by apply Hskip.
        -- intros found Hrun. apply IHok in Hrun as (new & -> & Hall). eauto.
    + split; [|done]. split; [|done]. intros _. left. repeat split; try done.
      rewrite Esplit. done.
Qed.

Lemma build_info_loop_error (build_props : list string) :
  forall build_info e,
    build_info_loop build_props build_info = inl e -> e = Err.ValueError.
Proof.
  induction build_props as [|line rest IH]; intros build_info e; cbn [build_info_loop].
  - done.
  - destruct (Py.startswith "#" line || String.eqb line ""); [apply IH|].
    destruct (Py.split "=" line) as [|prop [|info [|third more]]]; try by intros [= <-].
    destruct (elem prop ["ro.system.build.date.utc"]); apply IH.
Qed.

(** X17: [extract_build_info] passes on the exception of the archive when
    [SYSTEM/build.prop] cannot be read from it, and raises
    [UnicodeDecodeError] when the bytes read are not UTF-8.  When they
    decode, it fails exactly when some line that is neither a comment nor
    empty does not split into two parts at [=], whatever property that line
    is about, and then with [ValueError].  When it succeeds, every entry is
    the build date property, and what [extract] prints for it is the very
    line of [build.prop] it came from. *)
Theorem extract_build_info_reads_the_build_date (zip_read : zip_reader)
    (zip_target : string) :
  (forall e,
      zip_read zip_target "SYSTEM/build.prop" = inl e ->
      extract_build_info zip_read zip_target = inl e)
  /\ (forall bytes,
         zip_read zip_target "SYSTEM/build.prop" = inr bytes ->
         (decodable UTF_8 bytes = false ->
          extract_build_info zip_read zip_target = inl Err.UnicodeDecodeError)
         /\ (decodable UTF_8 bytes = true ->
             (forall e, extract_build_info zip_read zip_target = inl e -> e = Err.ValueError)
             /\ (extract_build_info zip_read zip_target = inl Err.ValueError
                 <-> Exists malformed_property_line (Py.split "010" bytes))
             /\ forall build_info,
                 extract_build_info zip_read zip_target = inr build_info ->
                 Forall (fun entry => fst entry = "ro.system.build.date.utc") build_info
                 /\ extract_lines build_info
                    = map (fun entry => fst entry +:+ "=" +:+ snd entry) build_info
                 /\ Forall (fun line => line ∈ Py.split "010" bytes)
                      (extract_lines build_info))).
Proof.
  unfold extract_build_info. split.
  { intros e ->. done. }
  intros bytes ->. split; [by intros ->|]. intros ->. cbv zeta.
  destruct (build_info_loop_spec (Py.split "010" bytes) []) as [Herr Hok].
  split; [apply build_info_loop_error|]. split; [exact Herr|].
  intros build_info Hrun. apply Hok in Hrun as (new & -> & Hall). cbn [app].
  assert (extract_lines new = map (fun entry => fst entry +:+ "=" +:+ snd entry) new) as Hl.
  { clear -Hall. induction Hall as [|[prop info] rest [Hprop _] Hrest IH]; [done|].
    cbn [fst snd] in Hprop. subst prop.
    unfold extract_lines in *. cbn [flat_map map fst snd] in *.
    rewrite IH. reflexivity. }
  split; [|split; [exact Hl|]].
  - eapply Forall_impl; [exact Hall|]. by intros e [? _].
  - rewrite Hl. apply Forall_map. eapply Forall_impl; [exact Hall|]. by intros e [_ ?].
Qed.

(** A target file whose [build.prop] has a comment, the build date and
    another property; and one whose [build.prop] is not UTF-8. *)
Example extract_build_info_of_a_target_file :
  extract_build_info
    (fun _ name =>
       if String.eqb name "SYSTEM/build.prop"
       then inr ("# begin" +:+ newline +:+ "ro.system.build.date.utc=1700000000" +:+ newline
                 +:+ "ro.product.name=demo" +:+ newline)
       else inl Err.KeyError)
    "builds/old.zip"
  = inr [("ro.system.build.date.utc", "1700000000")]
  /\ extract_build_info
       (fun _ _ => inr (String "255" ("=1" +:+ newline))) "builds/old.zip"
     = inl Err.UnicodeDecodeError.
Proof. split; reflexivity. Qed.

(** ** Certificates *)

Lemma slice_to_prefix (before rest : string) :
  Py.slice_to (before +:+ rest) (Py.len before) = before.
Proof.
  unfold Py.slice_to, Py.bound, Py.len. cbv zeta. rewrite string_length_app.
  destruct (Z.ltb_spec (Z.of_nat (String.length before)) 0); [lia|].
  replace (Z.to_nat _) with (String.length before) by lia.
  apply substring_app_l.
Qed.

(** X18: the package a certificate belongs to is named by the last segment
    of what stands before the first [/META-INF/] of its path, so the name
    has no slash; a path without [/META-INF/] is a [ValueError]. *)
Theorem apk_name_of_certificate_path (certpath : string) :
  (Py.contains "/META-INF/" certpath = false ->
   get_apkname_from_cert_path certpath = inl Err.ValueError)
  /\ (forall before rest,
         certpath = before +:+ rest ->
         Py.find "/META-INF/" certpath = Py.len before ->
         get_apkname_from_cert_path certpath = inr (get_filename before)
         /\ Py.contains "/" (get_filename before) = false).
Proof.
  unfold get_apkname_from_cert_path. cbv zeta. split.
  - unfold Py.contains. intros H%negb_false_iff. by rewrite H.
  - intros before rest -> Hfind. rewrite Hfind.
    assert ((Py.len before =? -1) = false) as -> by (apply Z.eqb_neq; unfold Py.len; lia).
    rewrite slice_to_prefix. split; [reflexivity|].
    apply basename_is_last_segment.
Qed.

(** ** Lines *)

Lemma concat_empty_cons (x : string) (l : list string) :
  String.concat "" (x :: l) = x +:+ String.concat "" l.
Proof. destruct l; cbn [String.concat]; [by rewrite append_nil_r|by rewrite append_empty]. Qed.

Lemma contains_char_app (c : ascii) (a b : string) :
  Py.contains (String c "") (a +:+ b)
  = Py.contains (String c "") a || Py.contains (String c "") b.
Proof.
  induction a as [|x a IH]; [by rewrite append_empty|].
  rewrite append_String, !contains_char_cons, IH. by rewrite orb_assoc.
Qed.



(** The lines of a text, written one after the other, are the text. *)
Lemma join_readlines_from (cur s : string) :
  String.concat "" (Py.readlines_from cur s) = cur +:+ s.
Proof.
  revert cur. induction s as [|x s IH]; intros cur; cbn [Py.readlines_from].
  - destruct cur; [done|]. cbn [String.concat]. by rewrite append_nil_r.
  - destruct (Ascii.eqb x "010").
    + rewrite concat_empty_cons, IH, append_empty, append_assoc. done.
    + rewrite IH, append_assoc. done.
Qed.

Lemma join_readlines (s : string) : Py.join "" (Py.readlines s) = s.
Proof. unfold Py.join, Py.readlines. by rewrite join_readlines_from, append_empty. Qed.

(** A text that ends with a newline is made of complete lines. *)
Lemma readlines_from_complete (cur s : string) :
  Py.contains newline cur = false ->
  Forall is_line (Py.readlines_from cur (s +:+ newline)).
Proof.
  revert cur. induction s as [|x s IH]; intros cur Hcur.
  - rewrite append_empty. unfold newline. cbn [Py.readlines_from].
    rewrite Ascii.eqb_refl. cbn [Py.readlines_from]. repeat constructor. by exists cur.
  - rewrite append_String. cbn [Py.readlines_from].
    destruct (Ascii.eqb x "010") eqn:E.
    + apply Ascii.eqb_eq in E as ->. constructor; [by exists cur|]. by apply IH.
    + apply IH. unfold newline. rewrite contains_char_app, contains_char_cons.
      fold newline. rewrite Hcur, Ascii.eqb_sym, E. done.
Qed.

Lemma delete_char_line (body : string) :
  Py.contains newline body = false -> delete_char "010" (body +:+ newline) = body.
Proof.
  induction body as [|x body IH]; [done|].
  unfold newline at 1. rewrite contains_char_cons. intros [E H]%orb_false_elim.
  rewrite append_String. cbn [delete_char]. rewrite Ascii.eqb_sym, E. by rewrite IH.
Qed.

Lemma list_to_str_of_lines (l : list string) :
  Forall is_line l -> l <> [] ->
  list_to_str (map (delete_char "010") l) = String.concat "" l.
Proof.
  unfold list_to_str, Py.join.
  induction 1 as [|x l (body & -> & Hbody) Hl IH]; [done|]. intros _.
  rewrite concat_empty_cons. cbn [map]. rewrite delete_char_line by done.
  destruct l as [|y l].
  - cbn [map String.concat]. by rewrite append_nil_r.
  - rewrite <- IH by done. cbn [map String.concat]. by rewrite !append_assoc.
Qed.

(** X19: turning the output of a command into a list of lines without
    newlines and back into text with [list_to_str] rebuilds the output when
    it ends with a newline; an empty output comes back as one newline. *)
Theorem list_to_str_rebuilds_output (text : string) :
  list_to_str (remove_newlines (Py.readlines (text +:+ newline))) = text +:+ newline
  /\ list_to_str (remove_newlines (Py.readlines "")) = newline.
Proof.
  split; [|reflexivity].
  assert (remove_newlines (Py.readlines (text +:+ newline))
          = map (delete_char "010") (Py.readlines (text +:+ newline))) as ->.
  { unfold remove_newlines. apply map_ext. intros line. apply replace_while_char_deletes. }
  rewrite list_to_str_of_lines.
  - apply join_readlines.
  - by apply readlines_from_complete.
  - intros H. pose proof (join_readlines (text +:+ newline)) as Hj. rewrite H in Hj.
    apply (f_equal String.length) in Hj. rewrite string_length_app in Hj. simpl in Hj. lia.
Qed.

(** ** Sorting keeps the lines *)









(** ** Decoding and lines *)

Section Decoding.

Context (enc : encoding).




















End Decoding.



(** A last line without its newline is no complete line, and sorting can
    glue it to the line that comes to stand behind it; a file that does not
    decode stops [sort_files] before anything is written. *)
Example sort_files_glues_an_unfinished_line :
  sort_files UTF_8 "/old/app.map" "/new/app.map"
    (<["/old/app.map" := RegularFile ("b" +:+ newline +:+ "a")]>
     (<["/new/app.map" := RegularFile ""]> ∅))
  = inr (<["/new/app.map" := RegularFile ""]>
         (<["/old/app.map" := RegularFile ("ab" +:+ newline)]>
          (<["/old/app.map" := RegularFile ("b" +:+ newline +:+ "a")]>
           (<["/new/app.map" := RegularFile ""]> ∅))))
  /\ sort_files UTF_8 "/old/app.map" "/new/app.map"
       (<["/old/app.map" := RegularFile ("b" +:+ newline +:+ "a" +:+ newline)]>
        (<["/new/app.map" := RegularFile (String "255" ("a" +:+ newline))]> ∅))
     = inl UnicodeDecodeError.
Proof. split; reflexivity. Qed.

(** ** A whole comparison and the list of uncomparable files *)

Section WholeRun.

Context (cfg : config) (w : world).

(** X21: [uncomparable_files] grows by one pair at most in a run of
    [compare_target_files], and only on the way out with exit status 1.  A
    run that returns its dict has left the list as it was, so when the list
    was empty at the start, the summary written afterwards never has a
    section about uncomparable files. *)
Theorem uncomparable_files_grow_only_on_exit (zip1 zip2 : string) (force_clean : bool)
    (g : globals) (r : result dict) (g' : globals) :
  compare_target_files cfg w zip1 zip2 force_clean g = (r, g') ->
  (uncomparable_files g' = uncomparable_files g
   \/ (r = Raise (SystemExit 1)
       /\ exists pair, uncomparable_files g' = uncomparable_files g ++ [pair]))
  /\ ((exists all_diffs, r = Ok all_diffs) ->
      uncomparable_files g = [] ->
      forall later,
        uncomparable_files later = uncomparable_files g' ->
        summary_for_uncomparable_files later = "").
Proof.
  intros Hrun.
  pose proof (compare_target_files_records_on_exit _ _ _ _ _ _ _ _ Hrun) as Hcases.
  split; [exact Hcases|].
  intros [all_diffs ->] Hempty later Hlater.
  destruct Hcases as [Hu|[[=] _]].
  unfold summary_for_uncomparable_files. by rewrite Hlater, Hu, Hempty.
Qed.

End WholeRun.

Lemma uncomparable_files_grow_only_on_exit_witness :
  fst (compare_target_files demo_config silent_world "builds/old.zip" "builds/new.zip"
         true no_globals) = Ok []
  /\ summary_for_uncomparable_files
       (snd (compare_target_files demo_config silent_world "builds/old.zip" "builds/new.zip"
               true no_globals)) = "".
Proof.
  split; [vm_compute; reflexivity|].
  apply (uncomparable_files_grow_only_on_exit demo_config silent_world
           "builds/old.zip" "builds/new.zip" true no_globals (Ok [])
           (snd (compare_target_files demo_config silent_world "builds/old.zip"
                   "builds/new.zip" true no_globals))).
  - vm_compute. reflexivity.
  - by exists [].
  - reflexivity.
  - reflexivity.
Defined.
